(** * Verification of the authenticated movie API backend

    A shallow embedding of [backend/app.py] (token issuance and
    verification, the auth gate, the register, login and whoami
    handlers) and of [backend/mysql_helper.py] (the connection and its
    closing, the cursor scope, the query methods, the schema helpers and
    the script runner), with the properties the specification states
    about them and further properties read off the code.

    Conventions.
    - A Python [str] is a Rocq [string]: a sequence of code points below
      256 (Latin-1).  [str.lower], [str.strip] and [str.splitlines] are
      written out for that range.
    - A Python [dict] with string keys is a [gmap string _].
    - Time is a count of whole seconds since the epoch, an integer.
    - External collaborators (PyJWT, the PyMySQL connection, the password
      hasher) are Section variables; what the proofs need from them is a
      Section hypothesis, and a small reference implementation shows each
      hypothesis can be met. *)

From Stdlib Require Import ZArith Ascii String List Bool Lia.
From stdpp Require Import base option list strings gmap countable.

Local Open Scope string_scope.
Local Open Scope Z_scope.

(** ** Python strings *)

Module PyStr.

Definition code (c : ascii) : N := N_of_ascii c.

(** [c.isspace()] for a code point below 256: TAB..CR, FS..US, space,
    NEL and NBSP. *)
Definition isspace (c : ascii) : bool :=
  let n := code c in
  ((9 <=? n) && (n <=? 13) || (28 <=? n) && (n <=? 32)
   || (n =? 133) || (n =? 160))%N.

(** [c.lower()]: A..Z and the Latin-1 capitals (all of C0..DE but the
    multiplication sign D7) move up by 32. *)
Definition lower_char (c : ascii) : ascii :=
  let n := code c in
  if ((65 <=? n) && (n <=? 90)
      || (192 <=? n) && (n <=? 222) && negb (n =? 215))%N
  then ascii_of_N (n + 32) else c.

Fixpoint lower (s : string) : string :=
  match s with
  | EmptyString => EmptyString
  | String c s' => String (lower_char c) (lower s')
  end.

Fixpoint lstrip (s : string) : string :=
  match s with
  | EmptyString => EmptyString
  | String c s' => if isspace c then lstrip s' else s
  end.

Fixpoint rstrip (s : string) : string :=
  match s with
  | EmptyString => EmptyString
  | String c s' =>
      match rstrip s' with
      | EmptyString => if isspace c then EmptyString else String c EmptyString
      | r => String c r
      end
  end.

(** [s.strip()] *)
Definition strip (s : string) : string := rstrip (lstrip s).

(** [s.startswith(p)] *)
Fixpoint startswith (p s : string) : bool :=
  match p, s with
  | EmptyString, _ => true
  | String a p', String b s' => Ascii.eqb a b && startswith p' s'
  | String _ _, EmptyString => false
  end.

(** [s.endswith(p)] for a one-character [p]. *)
Fixpoint endswith_char (c : ascii) (s : string) : bool :=
  match s with
  | EmptyString => false
  | String a EmptyString => Ascii.eqb a c
  | String _ s' => endswith_char c s'
  end.

(** [s[n:]] *)
Fixpoint slice_from (n : nat) (s : string) : string :=
  match n, s with
  | O, _ => s
  | S n', String _ s' => slice_from n' s'
  | S _, EmptyString => EmptyString
  end.

(** [c in s] for a one-character [c]. *)
Fixpoint contains_char (c : ascii) (s : string) : bool :=
  match s with
  | EmptyString => false
  | String a s' => Ascii.eqb a c || contains_char c s'
  end.

(** [s.split(c)[0]]: the part of [s] before the first [c], all of [s]
    when there is none. *)
Fixpoint split_head (c : ascii) (s : string) : string :=
  match s with
  | EmptyString => EmptyString
  | String a s' => if Ascii.eqb a c then EmptyString else String a (split_head c s')
  end.

(** Truth value of a string: [bool(s)]. *)
Definition truthy (s : string) : bool :=
  match s with EmptyString => false | _ => true end.

(** Line boundaries of [str.splitlines]: LF, VT, FF, CR, FS, GS, RS, NEL
    (CR LF counts once). *)
Definition is_linebreak (c : ascii) : bool :=
  let n := code c in
  ((10 <=? n) && (n <=? 13) || (28 <=? n) && (n <=? 30) || (n =? 133))%N.

Definition is_cr (c : ascii) : bool := (code c =? 13)%N.
Definition is_lf (c : ascii) : bool := (code c =? 10)%N.

(** [after_cr] remembers that the previous character was a CR, whose
    LF, if it follows, belongs to the same boundary; [cur] is the line
    read so far. *)
Fixpoint splitlines_go (after_cr : bool) (cur : string) (s : string) : list string :=
  match s with
  | EmptyString => if truthy cur then [cur] else []
  | String c s' =>
      if after_cr && is_lf c then splitlines_go false cur s'
      else if is_linebreak c then cur :: splitlines_go (is_cr c) EmptyString s'
      else splitlines_go false (cur ++ String c EmptyString) s'
  end.

(** [s.splitlines()] *)
Definition splitlines (s : string) : list string :=
  splitlines_go false EmptyString s.

(** [sep.join(l)] *)
Fixpoint join (sep : string) (l : list string) : string :=
  match l with
  | [] => EmptyString
  | [x] => x
  | x :: l' => x ++ sep ++ join sep l'
  end.

(** The first character of a string, when it has one, is no white
    space. *)
Definition clean_head (s : string) : Prop :=
  match s with
  | EmptyString => True
  | String c _ => isspace c = false
  end.

(** The last character of a string, when it has one, is no white space. *)
Fixpoint clean_last (s : string) : Prop :=
  match s with
  | EmptyString => True
  | String c EmptyString => isspace c = false
  | String _ s' => clean_last s'
  end.

End PyStr.

(** ** Python values, exceptions and effects *)

(** The values that travel through the code: [None], integers, strings
    and [datetime] objects (as whole seconds since the epoch). *)
Inductive pyval : Type :=
| PyNone
| PyInt (z : Z)
| PyStr (s : string)
| PyDatetime (t : Z).

Global Instance pyval_eq_dec : EqDecision pyval.
Proof. solve_decision. Defined.

(** The exception classes the code names or can meet, with the class
    each one derives from. *)
Inductive pyclass : Type :=
| BaseException
| Exception
| KeyboardInterrupt
| SystemExit
| AttributeError
| KeyError
| MySQLError
| pymysql_Error
| DatabaseError
| OperationalError
| ProgrammingError
| IntegrityError
| PyJWTError
| InvalidKeyError
| InvalidTokenError
| DecodeError
| InvalidSignatureError
| ExpiredSignatureError
| InvalidAlgorithmError
| ImmatureSignatureError.

Definition base_class (c : pyclass) : option pyclass :=
  match c with
  | BaseException => None
  | Exception | KeyboardInterrupt | SystemExit => Some BaseException
  | AttributeError | KeyError | MySQLError | PyJWTError => Some Exception
  | pymysql_Error => Some MySQLError
  | DatabaseError => Some pymysql_Error
  | OperationalError | ProgrammingError | IntegrityError => Some DatabaseError
  | InvalidKeyError | InvalidTokenError => Some PyJWTError
  | DecodeError | ExpiredSignatureError | InvalidAlgorithmError
  | ImmatureSignatureError => Some InvalidTokenError
  | InvalidSignatureError => Some DecodeError
  end.

Definition pyclass_eqb (a b : pyclass) : bool :=
  match a, b with
  | BaseException, BaseException | Exception, Exception
  | KeyboardInterrupt, KeyboardInterrupt | SystemExit, SystemExit
  | AttributeError, AttributeError | KeyError, KeyError
  | MySQLError, MySQLError | pymysql_Error, pymysql_Error
  | DatabaseError, DatabaseError | OperationalError, OperationalError
  | ProgrammingError, ProgrammingError | IntegrityError, IntegrityError
  | PyJWTError, PyJWTError | InvalidKeyError, InvalidKeyError
  | InvalidTokenError, InvalidTokenError | DecodeError, DecodeError
  | InvalidSignatureError, InvalidSignatureError
  | ExpiredSignatureError, ExpiredSignatureError
  | InvalidAlgorithmError, InvalidAlgorithmError
  | ImmatureSignatureError, ImmatureSignatureError => true
  | _, _ => false
  end.

(** [issubclass(c, d)]: walk up from [c]; no class is more than six
    steps below [BaseException]. *)
Fixpoint issubclass_upto (depth : nat) (c d : pyclass) : bool :=
  pyclass_eqb c d ||
  match depth, base_class c with
  | S n, Some b => issubclass_upto n b d
  | _, _ => false
  end.

Definition issubclass (c d : pyclass) : bool := issubclass_upto 6 c d.

(** A raised exception: its class and its message. *)
Record pyexc : Type := mk_exc { exc_class : pyclass; exc_msg : string }.

(** [except d:] catches [e]. *)
Definition caught_by (e : pyexc) (d : pyclass) : bool := issubclass (exc_class e) d.

(** The outcome of a call: a returned value or a raised exception. *)
Inductive result (A : Type) : Type :=
| Ret (a : A)
| Raise (e : pyexc).
Arguments Ret {A} a.
Arguments Raise {A} e.

(** Code that reads and writes a state [S] and may raise. *)
Definition M (S A : Type) : Type := S -> result A * S.

Definition ret {S A} (a : A) : M S A := fun s => (Ret a, s).
Definition raise {S A} (e : pyexc) : M S A := fun s => (Raise e, s).
Definition bind {S A B} (m : M S A) (k : A -> M S B) : M S B :=
  fun s => match m s with
           | (Ret a, s') => k a s'
           | (Raise e, s') => (Raise e, s')
           end.

Notation "'let!' x ':=' m 'in' k" := (bind m (fun x => k))
  (at level 10, x name, m at level 100, k at level 200).
Notation "'do!' m 'in' k" := (bind m (fun _ => k))
  (at level 10, m at level 100, k at level 200).

(** [try: m except cls: h]: [h] runs when [m] raises an instance of [cls]. *)
Definition try_except {S A} (m : M S A) (cls : pyclass) (h : pyexc -> M S A) : M S A :=
  fun s => match m s with
           | (Raise e, s') => if caught_by e cls then h e s' else (Raise e, s')
           | r => r
           end.

(** [try: m finally: f]: [f] runs on every exit of [m]; an exception of
    [f] replaces the outcome of [m]. *)
Definition try_finally {S A} (m : M S A) (f : M S unit) : M S A :=
  fun s => match m s with
           | (r, s') => match f s' with
                        | (Ret _, s'') => (r, s'')
                        | (Raise e, s'') => (Raise e, s'')
                        end
           end.

(** ** backend/mysql_helper.py *)

Section MySqlHelper.

(** The PyMySQL connection and the server behind it are outside the
    repository.  [store] is their state, [row] a fetched row, and
    [driver] the calls the helper makes on them, each of which may change
    the state and may raise. *)
Variable store : Type.
Variable row : Type.

Definition cursor : Type := nat.

Record driver : Type := {
  pymysql_connect : store -> result unit * store;
  conn_open : store -> bool;
  conn_cursor : store -> result cursor * store;
  conn_commit : store -> result unit * store;
  conn_rollback : store -> result unit * store;
  cursor_execute : cursor -> string -> list pyval -> store -> result Z * store;
  cursor_executemany : cursor -> string -> list (list pyval) -> store -> result Z * store;
  cursor_fetchall : cursor -> store -> result (list row) * store;
  cursor_fetchone : cursor -> store -> result (option row) * store;
  cursor_close : cursor -> store -> result unit * store
}.

Variable pymysql : driver.

(** What the helper does, in order: the calls it makes on the driver, and
    the entries into [execute_non_query], the method [ensure_table] and
    [run_script] run their statements through. *)
Inductive event : Type :=
| EvConnect
| EvCursor
| EvExecute (c : cursor) (sql : string) (params : list pyval)
| EvExecuteMany (c : cursor) (sql : string) (param_list : list (list pyval))
| EvFetchAll (c : cursor)
| EvFetchOne (c : cursor)
| EvCommit
| EvRollback
| EvCursorClose (c : cursor)
| EvNonQuery (sql : string) (params : list pyval).

(** A [MySqlHelper] object: [connection] tells whether [self.connection]
    is set, [server] is the driver's state, [log] the events so far. *)
Record helper : Type := {
  connection : bool;
  server : store;
  log : list event
}.

Definition emit (ev : event) : M helper unit :=
  fun h => (Ret tt, {| connection := connection h; server := server h; log := log h ++ [ev] |}).

Definition driver_call {A} (ev : event) (op : store -> result A * store) : M helper A :=
  fun h => let (r, s') := op (server h) in
           (r, {| connection := connection h; server := s'; log := log h ++ [ev] |}).

(** [self.connection] is replaced when it is unset or no longer open; a
    failed [pymysql.connect] is logged and raised again. *)
Definition _get_connection : M helper unit :=
  fun h =>
    if negb (connection h) || negb (conn_open pymysql (server h)) then
      match driver_call EvConnect (pymysql_connect pymysql) h with
      | (Ret _, h') => (Ret tt, {| connection := true; server := server h'; log := log h' |})
      | (Raise e, h') => (Raise e, h')
      end
    else (Ret tt, h).

(** [except Exception as e: conn.rollback(); logger.error(...); raise] *)
Definition rollback_and_reraise {A} (e : pyexc) : M helper A :=
  do! driver_call EvRollback (conn_rollback pymysql) in raise e.

(** The context manager [_get_cursor], applied to the body of its [with]
    block.  The source has one [try] around [conn.cursor()], the body and
    [conn.commit()], whose [finally] closes the cursor [if cursor]: the
    local [cursor] is still [None] while [conn.cursor()] has not
    returned, so the [finally] closes nothing on that path and closes the
    cursor on every later one. *)
Definition _get_cursor {A} (body : cursor -> M helper A) : M helper A :=
  do! _get_connection in
  let! cur := try_except (driver_call EvCursor (conn_cursor pymysql))
                         Exception rollback_and_reraise in
  try_finally
    (try_except
       (let! a := body cur in
        do! driver_call EvCommit (conn_commit pymysql) in
        ret a)
       Exception rollback_and_reraise)
    (driver_call (EvCursorClose cur) (cursor_close pymysql cur)).

(** [params or ()] *)
Definition params_or_empty (params : option (list pyval)) : list pyval :=
  match params with Some p => p | None => [] end.

(** [except pymysql.Error as e: logger.error(...); raise] *)
Definition log_and_reraise {A} (m : M helper A) : M helper A :=
  try_except m pymysql_Error (fun e => raise e).

Definition execute_query (sql : string) (params : option (list pyval)) : M helper (list row) :=
  log_and_reraise
    (_get_cursor (fun cur =>
       do! driver_call (EvExecute cur sql (params_or_empty params))
             (cursor_execute pymysql cur sql (params_or_empty params)) in
       driver_call (EvFetchAll cur) (cursor_fetchall pymysql cur))).

Definition execute_non_query (sql : string) (params : option (list pyval)) : M helper Z :=
  do! emit (EvNonQuery sql (params_or_empty params)) in
  log_and_reraise
    (_get_cursor (fun cur =>
       driver_call (EvExecute cur sql (params_or_empty params))
         (cursor_execute pymysql cur sql (params_or_empty params)))).

Definition execute_many (sql : string) (param_list : list (list pyval)) : M helper Z :=
  match param_list with
  | [] => ret 0
  | _ =>
      log_and_reraise
        (_get_cursor (fun cur =>
           driver_call (EvExecuteMany cur sql param_list)
             (cursor_executemany pymysql cur sql param_list)))
  end.

(** The catalog query of [table_exists] (its line breaks and indentation
    left out). *)
Definition TABLE_EXISTS_SQL : string :=
  "SELECT 1 FROM information_schema.TABLES WHERE TABLE_SCHEMA = COALESCE(%s, DATABASE()) AND TABLE_NAME = %s LIMIT 1".

Definition py_optional (s : option string) : pyval :=
  match s with Some x => PyStr x | None => PyNone end.

(** The [return cur.fetchone() is not None] stands after the [with]
    block: the row is fetched from the cursor the scope has closed. *)
Definition table_exists (table_name : string) (schema : option string) : M helper bool :=
  let! cur := _get_cursor (fun cur =>
                do! driver_call (EvExecute cur TABLE_EXISTS_SQL [py_optional schema; PyStr table_name])
                      (cursor_execute pymysql cur TABLE_EXISTS_SQL [py_optional schema; PyStr table_name]) in
                ret cur) in
  let! r := driver_call (EvFetchOne cur) (cursor_fetchone pymysql cur) in
  ret (match r with Some _ => true | None => false end).

(** [if table_name:] holds for a name that is given and not empty. *)
Definition name_given (table_name : option string) : option string :=
  match table_name with
  | Some n => if PyStr.truthy n then Some n else None
  | None => None
  end.

Definition ensure_table (create_table_sql : string) (table_name : option string)
    (schema : option string) : M helper unit :=
  let! present := match name_given table_name with
                  | Some n => table_exists n schema
                  | None => ret false
                  end in
  if present then ret tt
  else do! execute_non_query create_table_sql None in ret tt.

Definition NL : string := String (ascii_of_nat 10) EmptyString.

(** The test of the loop of [run_script] that skips a line. *)
Definition script_skips (line : string) : bool :=
  let l := PyStr.strip line in
  negb (PyStr.truthy l) || PyStr.startswith "--" l || PyStr.startswith "#" l.

Definition ends_statement (line : string) : bool :=
  PyStr.endswith_char ";" (PyStr.strip line).

(** The loop over the lines, with its two lists. *)
Fixpoint script_loop (lines statements buff : list string) : list string * list string :=
  match lines with
  | [] => (statements, buff)
  | line :: rest =>
      if script_skips line then script_loop rest statements buff
      else
        let buff := (buff ++ [line])%list in
        if ends_statement line
        then script_loop rest (statements ++ [PyStr.join NL buff])%list []
        else script_loop rest statements buff
  end.

Definition script_statements (sql_text : string) : list string :=
  let '(statements, buff) := script_loop (PyStr.splitlines sql_text) [] [] in
  match buff with
  | [] => statements
  | _ => (statements ++ [PyStr.join NL buff])%list
  end.

(** [for stmt in statements: self.execute_non_query(stmt)] *)
Fixpoint execute_each (statements : list string) : M helper unit :=
  match statements with
  | [] => ret tt
  | stmt :: rest => do! execute_non_query stmt None in execute_each rest
  end.

Definition run_script (sql_text : string) : M helper unit :=
  execute_each (script_statements sql_text).

(** What [run_script] has collected when the loop ends and the rest of
    [buff] is flushed. *)
Definition script_flush (state : list string * list string) : list string :=
  let '(statements, buff) := state in
  match buff with
  | [] => statements
  | _ => (statements ++ [PyStr.join NL buff])%list
  end.

(** The specification's words for [run_script]: the lines that are kept
    are cut after each line that ends a statement. *)
Fixpoint split_after {A} (P : A -> bool) (l : list A) : list (list A) :=
  match l with
  | [] => []
  | x :: l' =>
      if P x then [x] :: split_after P l'
      else match split_after P l' with
           | [] => [[x]]
           | g :: gs => (x :: g) :: gs
           end
  end.

Definition kept_lines (sql_text : string) : list string :=
  List.filter (fun line => negb (script_skips line)) (PyStr.splitlines sql_text).

(** A group that a terminating line closes, and a last group left open. *)
Definition closed_group {A} (P : A -> bool) (g : list A) : Prop :=
  exists body x, g = (body ++ [x])%list /\ Forall (fun y => P y = false) body /\ P x = true.

Definition open_group {A} (P : A -> bool) (g : list A) : Prop :=
  g <> [] /\ Forall (fun y => P y = false) g.

Definition cut_after {A} (P : A -> bool) (groups : list (list A)) : Prop :=
  exists closed rest, groups = (closed ++ rest)%list
    /\ Forall (closed_group P) closed
    /\ (rest = [] \/ exists g, rest = [g] /\ open_group P g).

(** *** What the helper's methods leave in the log *)

(** The transaction decisions among some events. *)
Definition is_decision (ev : event) : bool :=
  match ev with EvCommit | EvRollback => true | _ => false end.

Definition decisions (evs : list event) : list event := List.filter is_decision evs.

(** The statements handed to [execute_non_query], in order. *)
Definition statement_of (ev : event) : option string :=
  match ev with EvNonQuery sql _ => Some sql | _ => None end.

Definition statements_run (evs : list event) : list string := omap statement_of evs.

(** A computation that never enters [execute_non_query]. *)
Definition quiet {A} (m : M helper A) : Prop :=
  forall h, statements_run (log (snd (m h))) = statements_run (log h).

Lemma quiet_ret {A} (a : A) : quiet (ret a).
Proof. intros h. reflexivity. Qed.

Lemma quiet_raise {A} e : quiet (@raise helper A e).
Proof. intros h. reflexivity. Qed.

Lemma quiet_driver_call {A} ev (op : store -> result A * store) :
  statement_of ev = None -> quiet (driver_call ev op).
Proof.
  intros Hev h. unfold driver_call. destruct (op (server h)) as [r s']. simpl.
  unfold statements_run. rewrite omap_app. simpl. rewrite Hev. apply app_nil_r.
Qed.

Lemma quiet_bind {A B} (m : M helper A) (k : A -> M helper B) :
  quiet m -> (forall a, quiet (k a)) -> quiet (bind m k).
Proof.
  intros Hm Hk h. unfold bind. specialize (Hm h).
  destruct (m h) as [[a|e] h1]; simpl in *.
  - rewrite Hk. exact Hm.
  - exact Hm.
Qed.

Lemma quiet_try_except {A} (m : M helper A) cls h' :
  quiet m -> (forall e, quiet (h' e)) -> quiet (try_except m cls h').
Proof.
  intros Hm Hh h. unfold try_except. specialize (Hm h).
  destruct (m h) as [[a|e] h1]; simpl in *; [exact Hm|].
  destruct (caught_by e cls); simpl; [|exact Hm].
  rewrite Hh. exact Hm.
Qed.

Lemma quiet_try_finally {A} (m : M helper A) f :
  quiet m -> quiet f -> quiet (try_finally m f).
Proof.
  intros Hm Hf h. unfold try_finally. specialize (Hm h).
  destruct (m h) as [r h1]. specialize (Hf h1).
  destruct (f h1) as [[u|e] h2]; simpl in *; congruence.
Qed.

Lemma quiet_get_connection : quiet _get_connection.
Proof.
  intros h. unfold _get_connection.
  destruct (negb (connection h) || negb (conn_open pymysql (server h))); [|reflexivity].
  pose proof (quiet_driver_call EvConnect (pymysql_connect pymysql) eq_refl h) as Hq.
  destruct (driver_call EvConnect (pymysql_connect pymysql) h) as [[u|e] h1]; exact Hq.
Qed.

Lemma quiet_rollback_and_reraise {A} e : quiet (@rollback_and_reraise A e).
Proof.
  apply quiet_bind; [now apply quiet_driver_call|intros; apply quiet_raise].
Qed.

Lemma quiet_get_cursor {A} (body : cursor -> M helper A) :
  (forall c, quiet (body c)) -> quiet (_get_cursor body).
Proof.
  intros Hb. unfold _get_cursor.
  apply quiet_bind; [apply quiet_get_connection|intros _].
  apply quiet_bind.
  - apply quiet_try_except; [now apply quiet_driver_call|].
    intros; apply quiet_rollback_and_reraise.
  - intros c. apply quiet_try_finally; [|now apply quiet_driver_call].
    apply quiet_try_except; [|intros; apply quiet_rollback_and_reraise].
    apply quiet_bind; [apply Hb|intros a].
    apply quiet_bind; [now apply quiet_driver_call|intros; apply quiet_ret].
Qed.

Lemma quiet_table_exists name schema : quiet (table_exists name schema).
Proof.
  unfold table_exists. apply quiet_bind.
  - apply quiet_get_cursor. intros c.
    apply quiet_bind; [now apply quiet_driver_call|intros; apply quiet_ret].
  - intros c. apply quiet_bind; [now apply quiet_driver_call|intros; apply quiet_ret].
Qed.

Lemma execute_non_query_runs sql params h :
  statements_run (log (snd (execute_non_query sql params h)))
  = (statements_run (log h) ++ [sql])%list.
Proof.
  unfold execute_non_query, bind at 1. simpl.
  set (h1 := {| connection := connection h; server := server h;
                log := (log h ++ [EvNonQuery sql (params_or_empty params)])%list |}).
  assert (Hq : quiet (log_and_reraise (_get_cursor (fun cur =>
            driver_call (EvExecute cur sql (params_or_empty params))
              (cursor_execute pymysql cur sql (params_or_empty params)))))).
  { apply quiet_try_except; [|intros; apply quiet_raise].
    apply quiet_get_cursor. intros c. now apply quiet_driver_call. }
  rewrite (Hq h1). unfold h1, statements_run. simpl. rewrite omap_app. reflexivity.
Qed.

(** *** The cursor scope *)

Lemma get_cursor_entered {A} (body : cursor -> M helper A) h h0 c h1 :
  _get_connection h = (Ret tt, h0) ->
  driver_call EvCursor (conn_cursor pymysql) h0 = (Ret c, h1) ->
  _get_cursor body h =
  try_finally
    (try_except
       (let! a := body c in
        do! driver_call EvCommit (conn_commit pymysql) in
        ret a)
       Exception rollback_and_reraise)
    (driver_call (EvCursorClose c) (cursor_close pymysql c)) h1.
Proof.
  intros Hc Hk. unfold _get_cursor, bind at 1. rewrite Hc.
  unfold bind at 1, try_except at 1. rewrite Hk. reflexivity.
Qed.

Lemma close_appends c h :
  log (snd (driver_call (EvCursorClose c) (cursor_close pymysql c) h))
  = (log h ++ [EvCursorClose c])%list.
Proof. unfold driver_call. destruct (cursor_close pymysql c (server h)). reflexivity. Qed.

Lemma try_finally_log {A} (m : M helper A) c h :
  log (snd (try_finally m (driver_call (EvCursorClose c) (cursor_close pymysql c)) h))
  = (log (snd (m h)) ++ [EvCursorClose c])%list.
Proof.
  unfold try_finally. destruct (m h) as [r h1]. simpl.
  rewrite <- close_appends.
  destruct (driver_call (EvCursorClose c) (cursor_close pymysql c) h1) as [[u|e] h2];
    reflexivity.
Qed.

(** The events of the [try] block after the body: the commit, and a
    rollback when something was raised that [except Exception] catches. *)
Lemma scope_body_log {A} (body : cursor -> M helper A) c h1 :
  exists evs,
    log (snd (try_except
                (let! a := body c in
                 do! driver_call EvCommit (conn_commit pymysql) in
                 ret a)
                Exception rollback_and_reraise h1))
    = (log (snd (body c h1)) ++ evs)%list.
Proof.
  unfold try_except, bind at 1.
  destruct (body c h1) as [[a|e] h2]; simpl.
  - unfold bind, driver_call.
    destruct (conn_commit pymysql (server h2)) as [[u|e] s3]; simpl.
    + exists [EvCommit]. reflexivity.
    + destruct (caught_by e Exception); simpl.
      * unfold rollback_and_reraise, bind, driver_call. simpl.
        destruct (conn_rollback pymysql s3) as [[u|e'] s4]; simpl;
          exists [EvCommit; EvRollback]; rewrite <- app_assoc; reflexivity.
      * exists [EvCommit]. reflexivity.
  - destruct (caught_by e Exception); simpl.
    + unfold rollback_and_reraise, bind, driver_call. simpl.
      destruct (conn_rollback pymysql (server h2)) as [[u|e'] s4]; simpl;
        exists [EvRollback]; reflexivity.
    + exists []. now rewrite app_nil_r.
Qed.

Lemma scope_closes {A} (body : cursor -> M helper A) h h0 c h1 :
  _get_connection h = (Ret tt, h0) ->
  driver_call EvCursor (conn_cursor pymysql) h0 = (Ret c, h1) ->
  exists evs, log (snd (_get_cursor body h)) = (log (snd (body c h1)) ++ evs)%list
              /\ list.last evs = Some (EvCursorClose c).
Proof.
  intros Hc Hk. rewrite (get_cursor_entered body h h0 c h1 Hc Hk).
  rewrite try_finally_log.
  destruct (scope_body_log body c h1) as [evs ->].
  exists (evs ++ [EvCursorClose c])%list. split.
  - now rewrite app_assoc.
  - apply last_snoc.
Qed.

Lemma scope_rolls_back {A} (body : cursor -> M helper A) h h0 c h1 e h2 :
  _get_connection h = (Ret tt, h0) ->
  driver_call EvCursor (conn_cursor pymysql) h0 = (Ret c, h1) ->
  body c h1 = (Raise e, h2) ->
  caught_by e Exception = true ->
  log (snd (_get_cursor body h)) = (log h2 ++ [EvRollback; EvCursorClose c])%list
  /\ (forall s3, conn_rollback pymysql (server h2) = (Ret tt, s3) ->
      fst (cursor_close pymysql c s3) = Ret tt ->
      fst (_get_cursor body h) = Raise e).
Proof.
  intros Hc Hk Hb He. rewrite (get_cursor_entered body h h0 c h1 Hc Hk).
  cbv [try_finally try_except bind driver_call ret raise rollback_and_reraise].
  rewrite Hb, He. simpl.
  destruct (conn_rollback pymysql (server h2)) as [[u|e'] s3] eqn:Hr; simpl.
  - split.
    + destruct (cursor_close pymysql c s3) as [[u'|e'] s4]; simpl;
        now rewrite <- app_assoc.
    + intros s3' Heq Hcl. inversion Heq; subst s3'.
      destruct (cursor_close pymysql c s3) as [[u'|e'] s4]; simpl in *;
        [reflexivity|discriminate].
  - split.
    + destruct (cursor_close pymysql c s3) as [[u'|e''] s4]; simpl;
        now rewrite <- app_assoc.
    + intros s3' [=].
Qed.

(** After a body that returned: the commit is the next call, whatever
    comes of it; a commit that goes through is followed by the close
    alone, and the outcome is then the close's to decide; a commit that
    raises an exception of class [Exception] is followed by the rollback
    and the close. *)
Lemma scope_body_returned {A} (body : cursor -> M helper A) h h0 c h1 a h2 :
  _get_connection h = (Ret tt, h0) ->
  driver_call EvCursor (conn_cursor pymysql) h0 = (Ret c, h1) ->
  body c h1 = (Ret a, h2) ->
  (exists evs, log (snd (_get_cursor body h)) = (log h2 ++ EvCommit :: evs)%list)
  /\ (forall s3,
        conn_commit pymysql (server h2) = (Ret tt, s3) ->
        log (snd (_get_cursor body h)) = (log h2 ++ [EvCommit; EvCursorClose c])%list
        /\ fst (_get_cursor body h)
           = match fst (cursor_close pymysql c s3) with
             | Ret _ => Ret a
             | Raise e => Raise e
             end)
  /\ (forall e s3,
        conn_commit pymysql (server h2) = (Raise e, s3) ->
        caught_by e Exception = true ->
        log (snd (_get_cursor body h))
        = (log h2 ++ [EvCommit; EvRollback; EvCursorClose c])%list).
Proof.
  intros Hc Hk Hb. rewrite (get_cursor_entered body h h0 c h1 Hc Hk).
  cbv [try_finally try_except bind driver_call ret raise rollback_and_reraise].
  rewrite Hb. cbn [fst snd connection server log]. split; [|split].
  - destruct (conn_commit pymysql (server h2)) as [[u|e] s3];
      cbn [fst snd connection server log].
    + destruct (cursor_close pymysql c s3) as [[u'|e'] s4];
        cbn [fst snd log]; eexists; rewrite <- app_assoc; reflexivity.
    + destruct (caught_by e Exception); cbn [fst snd connection server log].
      * destruct (conn_rollback pymysql s3) as [[u'|e'] s4];
          cbn [fst snd connection server log];
          destruct (cursor_close pymysql c s4) as [[u''|e''] s5];
          cbn [fst snd log]; eexists; rewrite <- !app_assoc; reflexivity.
      * destruct (cursor_close pymysql c s3) as [[u'|e'] s4];
          cbn [fst snd log]; eexists; rewrite <- app_assoc; reflexivity.
  - intros s3 Hcommit. rewrite Hcommit. cbn [fst snd connection server log].
    destruct (cursor_close pymysql c s3) as [[u'|e'] s4];
      cbn [fst snd log]; rewrite <- app_assoc; split; reflexivity.
  - intros e s3 Hcommit Hcaught. rewrite Hcommit.
    cbn [fst snd connection server log]. rewrite Hcaught.
    cbn [fst snd connection server log].
    destruct (conn_rollback pymysql s3) as [[u'|e'] s4];
      cbn [fst snd connection server log];
      destruct (cursor_close pymysql c s4) as [[u''|e''] s5];
      cbn [fst snd log]; rewrite <- !app_assoc; reflexivity.
Qed.

(** C5 (as amended).  Once the scope holds a cursor [c]:
    (1) the last thing it does on every exit path is to close [c];
    (2) when the body returns, the commit is called next, whatever comes
    of it; when the commit goes through, the scope adds the commit and
    the close and nothing else, so the commit is its only decision, and
    it hands the body's value on when the close goes through and raises
    the close's exception otherwise; when the commit raises an exception
    of class [Exception], the rollback follows, then the close;
    (3) when the body raises an exception of class [Exception], the
    scope adds the rollback and the close and nothing else, so there is
    no commit, and, the rollback and the close going through, it raises
    the same exception again. *)
Theorem get_cursor_scope {A} (body : cursor -> M helper A) h h0 c h1 :
  _get_connection h = (Ret tt, h0) ->
  driver_call EvCursor (conn_cursor pymysql) h0 = (Ret c, h1) ->
  (exists evs, log (snd (_get_cursor body h)) = (log (snd (body c h1)) ++ evs)%list
               /\ list.last evs = Some (EvCursorClose c))
  /\ (forall a h2,
        body c h1 = (Ret a, h2) ->
        (exists evs, log (snd (_get_cursor body h)) = (log h2 ++ EvCommit :: evs)%list)
        /\ (forall s3,
              conn_commit pymysql (server h2) = (Ret tt, s3) ->
              log (snd (_get_cursor body h)) = (log h2 ++ [EvCommit; EvCursorClose c])%list
              /\ decisions (log (snd (_get_cursor body h)))
                 = (decisions (log h2) ++ [EvCommit])%list
              /\ fst (_get_cursor body h)
                 = match fst (cursor_close pymysql c s3) with
                   | Ret _ => Ret a
                   | Raise e => Raise e
                   end)
        /\ (forall e s3,
              conn_commit pymysql (server h2) = (Raise e, s3) ->
              caught_by e Exception = true ->
              log (snd (_get_cursor body h))
              = (log h2 ++ [EvCommit; EvRollback; EvCursorClose c])%list))
  /\ (forall e h2,
        body c h1 = (Raise e, h2) ->
        caught_by e Exception = true ->
        log (snd (_get_cursor body h)) = (log h2 ++ [EvRollback; EvCursorClose c])%list
        /\ decisions (log (snd (_get_cursor body h)))
           = (decisions (log h2) ++ [EvRollback])%list
        /\ (forall s3, conn_rollback pymysql (server h2) = (Ret tt, s3) ->
            fst (cursor_close pymysql c s3) = Ret tt ->
            fst (_get_cursor body h) = Raise e)).
Proof.
  intros Hc Hk. split; [|split].
  - exact (scope_closes body h h0 c h1 Hc Hk).
  - intros a h2 Hb.
    destruct (scope_body_returned body h h0 c h1 a h2 Hc Hk Hb)
      as (Hcalled & Hcommitted & Hfailed).
    split; [exact Hcalled|]. split; [|exact Hfailed].
    intros s3 Hcommit. destruct (Hcommitted s3 Hcommit) as [Hlog Hout].
    split; [exact Hlog|]. split; [|exact Hout].
    rewrite Hlog. unfold decisions. rewrite List.filter_app. reflexivity.
  - intros e h2 Hb He.
    destruct (scope_rolls_back body h h0 c h1 e h2 Hc Hk Hb He) as [Hlog Hret].
    split; [exact Hlog|]. split; [|exact Hret].
    rewrite Hlog. unfold decisions. rewrite List.filter_app. reflexivity.
Qed.

(** *** The batch write *)

(** C6.  With an empty parameter sequence [execute_many] returns 0 and
    leaves the helper as it was: the connection attribute, the state
    behind the driver and the log of driver calls are all unchanged, so
    no connection was acquired, no cursor opened, nothing committed or
    rolled back. *)
Theorem execute_many_empty (sql : string) (h : helper) :
  execute_many sql [] h = (Ret 0, h)
  /\ log (snd (execute_many sql [] h)) = log h
  /\ server (snd (execute_many sql [] h)) = server h
  /\ connection (snd (execute_many sql [] h)) = connection h.
Proof. unfold execute_many, ret. simpl. auto. Qed.

(** *** The schema helpers *)

Lemma ensure_table_present sql name schema h h1 :
  PyStr.truthy name = true ->
  table_exists name schema h = (Ret true, h1) ->
  ensure_table sql (Some name) schema h = (Ret tt, h1).
Proof.
  intros Hn Ht. unfold ensure_table, name_given. rewrite Hn.
  unfold bind. rewrite Ht. reflexivity.
Qed.

Lemma ensure_table_absent sql name schema h h1 :
  PyStr.truthy name = true ->
  table_exists name schema h = (Ret false, h1) ->
  ensure_table sql (Some name) schema h
  = (do! execute_non_query sql None in ret tt) h1.
Proof.
  intros Hn Ht. unfold ensure_table, name_given. rewrite Hn.
  unfold bind at 1. rewrite Ht. reflexivity.
Qed.

Lemma ensure_table_failed sql name schema h e h1 :
  PyStr.truthy name = true ->
  table_exists name schema h = (Raise e, h1) ->
  ensure_table sql (Some name) schema h = (Raise e, h1).
Proof.
  intros Hn Ht. unfold ensure_table, name_given. rewrite Hn.
  unfold bind. rewrite Ht. reflexivity.
Qed.

(** One call of [ensure_table] with a name runs nothing or its statement. *)
Lemma ensure_table_runs sql name schema h :
  PyStr.truthy name = true ->
  statements_run (log (snd (ensure_table sql (Some name) schema h))) = statements_run (log h)
  \/ statements_run (log (snd (ensure_table sql (Some name) schema h)))
     = (statements_run (log h) ++ [sql])%list.
Proof.
  intros Hn. pose proof (quiet_table_exists name schema h) as Hq.
  destruct (table_exists name schema h) as [[[|]|e] h1] eqn:Ht; simpl in Hq.
  - left. rewrite (ensure_table_present sql name schema h h1 Hn Ht). exact Hq.
  - right. rewrite (ensure_table_absent sql name schema h h1 Hn Ht).
    pose proof (execute_non_query_runs sql None h1) as Hx. unfold bind.
    destruct (execute_non_query sql None h1) as [[z|e] h2]; simpl in *; congruence.
  - left. rewrite (ensure_table_failed sql name schema h e h1 Hn Ht). exact Hq.
Qed.

(** C7.  For a table name that is given (not empty) and a creation
    statement that, once run, makes the existence check report the table,
    two calls of [ensure_table] in a row hand the statement to the
    executor at most once; and whenever the existence check reports the
    table present, [ensure_table] returns in the state the check left,
    without entering the executor. *)
Theorem ensure_table_at_most_once sql name schema h :
  PyStr.truthy name = true ->
  (forall h1,
     ensure_table sql (Some name) schema h = (Ret tt, h1) ->
     statements_run (log h1) = (statements_run (log h) ++ [sql])%list ->
     fst (table_exists name schema h1) = Ret true) ->
  (exists done,
     statements_run (log (snd ((do! ensure_table sql (Some name) schema in
                                ensure_table sql (Some name) schema) h)))
     = (statements_run (log h) ++ done)%list
     /\ (done = [] \/ done = [sql]))
  /\ (forall h0 h1,
        table_exists name schema h0 = (Ret true, h1) ->
        ensure_table sql (Some name) schema h0 = (Ret tt, h1)
        /\ statements_run (log h1) = statements_run (log h0)).
Proof.
  intros Hn Hcreates. split.
  - unfold bind at 1.
    pose proof (ensure_table_runs sql name schema h Hn) as H1.
    destruct (ensure_table sql (Some name) schema h) as [[[]|e] h1] eqn:E1; simpl in H1.
    + destruct H1 as [H1|H1].
      * pose proof (ensure_table_runs sql name schema h1 Hn) as H2.
        rewrite H1 in H2. destruct H2 as [H2|H2].
        -- exists []. rewrite app_nil_r. auto.
        -- exists [sql]. auto.
      * specialize (Hcreates h1 eq_refl H1).
        destruct (table_exists name schema h1) as [r h2] eqn:Ht. simpl in Hcreates.
        subst r. rewrite (ensure_table_present sql name schema h1 h2 Hn Ht). simpl.
        pose proof (quiet_table_exists name schema h1) as Hq. rewrite Ht in Hq.
        simpl in Hq. exists [sql]. rewrite Hq. auto.
    + simpl. destruct H1 as [H1|H1].
      * exists []. rewrite app_nil_r. auto.
      * exists [sql]. auto.
  - intros h0 h1 Ht. split.
    + exact (ensure_table_present sql name schema h0 h1 Hn Ht).
    + pose proof (quiet_table_exists name schema h0) as Hq. rewrite Ht in Hq. exact Hq.
Qed.

(** *** The script runner *)

Lemma split_after_concat {A} (P : A -> bool) l : concat (split_after P l) = l.
Proof.
  induction l as [|x l IH]; simpl; [reflexivity|].
  destruct (P x); simpl; [now rewrite IH|].
  destruct (split_after P l) as [|g gs]; simpl in *; subst; reflexivity.
Qed.

Lemma split_after_open {A} (P : A -> bool) g :
  g <> [] -> Forall (fun y => P y = false) g -> split_after P g = [g].
Proof.
  induction g as [|x g IH]; intros Hne Hall; [contradiction|].
  inversion Hall as [|? ? Hx Hg]; subst. simpl. rewrite Hx.
  destruct g as [|y g]; [reflexivity|]. rewrite IH; [reflexivity|discriminate|exact Hg].
Qed.

Lemma split_after_closed {A} (P : A -> bool) buff x l :
  Forall (fun y => P y = false) buff -> P x = true ->
  split_after P (buff ++ x :: l) = (buff ++ [x])%list :: split_after P l.
Proof.
  intros Hall Hx. induction Hall as [|y buff Hy Hall IH]; simpl.
  - now rewrite Hx.
  - rewrite Hy, IH. reflexivity.
Qed.

Lemma split_after_cut {A} (P : A -> bool) l : cut_after P (split_after P l).
Proof.
  induction l as [|x l IH]; simpl.
  - exists [], []. split; [reflexivity|]. split; [constructor|now left].
  - destruct IH as (closed & rest & Heq & Hclosed & Hrest).
    destruct (P x) eqn:Hx.
    + exists ([x] :: closed), rest. rewrite Heq.
      split; [reflexivity|]. split; [|exact Hrest].
      constructor; [|exact Hclosed]. exists [], x. auto.
    + rewrite Heq. destruct closed as [|g closed]; simpl.
      * assert (Hopen : exists g, (match rest with
                                   | [] => [[x]]
                                   | g :: gs => (x :: g) :: gs
                                   end) = [g] /\ open_group P g).
        { destruct Hrest as [->|(g & -> & Hne & Hall)].
          - exists [x]. split; [reflexivity|]. split; [discriminate|].
            constructor; [exact Hx|constructor].
          - exists (x :: g). split; [reflexivity|]. split; [discriminate|].
            constructor; [exact Hx|exact Hall]. }
        destruct Hopen as (g & -> & Hg).
        exists [], [g]. split; [reflexivity|]. split; [constructor|].
        right. exists g. auto.
      * inversion Hclosed as [|? ? (body & y & -> & Hbody & Hy) Hcl]; subst.
        exists (((x :: body) ++ [y])%list :: closed), rest.
        split; [reflexivity|]. split; [|exact Hrest].
        constructor; [|exact Hcl]. exists (x :: body), y.
        split; [reflexivity|]. split; [|exact Hy].
        constructor; [exact Hx|exact Hbody].
Qed.

Lemma script_loop_split lines statements buff :
  Forall (fun l => ends_statement l = false) buff ->
  script_flush (script_loop lines statements buff)
  = (statements ++ map (PyStr.join NL)
       (split_after ends_statement
          (buff ++ List.filter (fun line => negb (script_skips line)) lines)))%list.
Proof.
  revert statements buff.
  induction lines as [|line rest IH]; intros statements buff Hbuff; simpl.
  - rewrite app_nil_r. destruct buff as [|b buff].
    + simpl. now rewrite app_nil_r.
    + rewrite split_after_open; [reflexivity|discriminate|exact Hbuff].
  - destruct (script_skips line) eqn:Hskip; simpl; [now apply IH|].
    destruct (ends_statement line) eqn:Hend.
    + rewrite (IH _ [] (Forall_nil _)). simpl.
      rewrite split_after_closed by assumption. simpl.
      now rewrite <- app_assoc.
    + rewrite IH.
      * now rewrite <- app_assoc.
      * apply Forall_app. split; [exact Hbuff|]. constructor; [exact Hend|constructor].
Qed.

Lemma script_statements_split sql_text :
  script_statements sql_text
  = map (PyStr.join NL) (split_after ends_statement (kept_lines sql_text)).
Proof.
  unfold script_statements, kept_lines.
  pose proof (script_loop_split (PyStr.splitlines sql_text) [] [] (Forall_nil _)) as H.
  simpl in H. rewrite <- H. unfold script_flush.
  destruct (script_loop (PyStr.splitlines sql_text) [] []) as [statements buff].
  reflexivity.
Qed.

Lemma execute_each_runs statements h :
  exists done,
    statements_run (log (snd (execute_each statements h)))
    = (statements_run (log h) ++ done)%list
    /\ done `prefix_of` statements
    /\ (fst (execute_each statements h) = Ret tt -> done = statements).
Proof.
  revert h. induction statements as [|stmt rest IH]; intros h; simpl.
  - exists []. rewrite app_nil_r.
    split; [reflexivity|]. split; [apply prefix_nil|reflexivity].
  - unfold bind. pose proof (execute_non_query_runs stmt None h) as Hx.
    destruct (execute_non_query stmt None h) as [[z|e] h1]; simpl in *.
    + destruct (IH h1) as (done & Hlog & Hpre & Hall).
      exists (stmt :: done). rewrite Hlog, Hx, <- app_assoc.
      split; [reflexivity|]. split.
      * now apply prefix_cons.
      * intros Hret. now rewrite (Hall Hret).
    + exists [stmt]. rewrite Hx.
      split; [reflexivity|]. split.
      * apply prefix_cons, prefix_nil.
      * discriminate.
Qed.

(** C8.  The statements of a script are the kept lines (not blank, not
    starting with two dashes or a hash once stripped), cut after each
    line whose stripped text ends with a semicolon and joined by line
    feeds; the groups, put end to end, are the kept lines, so none is
    dropped or moved; [run_script] hands the statements to the executor
    in that order, stops at the first that raises, and has run them all
    when it returns. *)
Theorem run_script_in_order (sql_text : string) (h : helper) :
  let groups := split_after ends_statement (kept_lines sql_text) in
  script_statements sql_text = map (PyStr.join NL) groups
  /\ concat groups = kept_lines sql_text
  /\ cut_after ends_statement groups
  /\ exists done,
       statements_run (log (snd (run_script sql_text h)))
       = (statements_run (log h) ++ done)%list
       /\ done `prefix_of` script_statements sql_text
       /\ (fst (run_script sql_text h) = Ret tt -> done = script_statements sql_text).
Proof.
  simpl. split; [apply script_statements_split|].
  split; [apply split_after_concat|].
  split; [apply split_after_cut|].
  apply execute_each_runs.
Qed.

(** *** The rest of the helper: closing, next to the query methods *)

(** [self.connection.close()], the one call of the driver the query
    methods never make. *)
Variable conn_close : store -> result unit * store.

(** [close]: a connection that is set and open is closed and the
    attribute reset; a failed [close()] of the driver leaves the
    attribute as it was. *)
Definition close : M helper unit :=
  fun h =>
    if connection h && conn_open pymysql (server h) then
      match conn_close (server h) with
      | (Ret _, s') => (Ret tt, {| connection := false; server := s'; log := log h |})
      | (Raise e, s') =>
          (Raise e, {| connection := connection h; server := s'; log := log h |})
      end
    else (Ret tt, h).

(** [__exit__] closes; [with MySqlHelper(...) as db: body] runs it on
    every exit of the body, and lets the body's exception through. *)
Definition __exit__ : M helper unit := close.

Definition with_helper {A} (body : M helper A) : M helper A :=
  try_finally body __exit__.

(** [create_database_if_not_exists]: the statement is put together from
    its three arguments as they are, and run without parameters. *)
Definition create_database_sql (dbname charset collate : string) : string :=
  "CREATE DATABASE IF NOT EXISTS `" ++ dbname ++ "` CHARACTER SET " ++ charset
  ++ " COLLATE " ++ collate ++ ";".

Definition create_database_if_not_exists (dbname charset collate : string) : M helper unit :=
  do! execute_non_query (create_database_sql dbname charset collate) None in ret tt.

(** The default values of [charset] and [collate]. *)
Definition DEFAULT_CHARSET : string := "utf8mb4".
Definition DEFAULT_COLLATE : string := "utf8mb4_general_ci".

(** What [_get_connection] adds to the log from a given state. *)
Definition connect_events (h : helper) : list event :=
  if connection h && conn_open pymysql (server h) then [] else [EvConnect].

(** A computation that adds no event of the kind [f] picks. *)
Definition keeps {A} (f : event -> bool) (m : M helper A) : Prop :=
  forall h, List.filter f (log (snd (m h))) = List.filter f (log h).

Definition is_connect (ev : event) : bool :=
  match ev with EvConnect => true | _ => false end.

Definition is_fetch_one (ev : event) : bool :=
  match ev with EvFetchOne _ => true | _ => false end.

(** The four outcomes a cursor scope can leave among the decisions. *)
Definition scope_decisions (ds : list event) : Prop :=
  ds = [] \/ ds = [EvCommit] \/ ds = [EvRollback] \/ ds = [EvCommit; EvRollback].

Lemma keeps_ret {A} f (a : A) : keeps f (ret a).
Proof. intros h. reflexivity. Qed.

Lemma keeps_raise {A} f e : keeps f (@raise helper A e).
Proof. intros h. reflexivity. Qed.

Lemma keeps_driver_call {A} f ev (op : store -> result A * store) :
  f ev = false -> keeps f (driver_call ev op).
Proof.
  intros Hev h. unfold driver_call. destruct (op (server h)) as [r s']. simpl.
  rewrite List.filter_app. simpl. rewrite Hev. apply app_nil_r.
Qed.

Lemma keeps_bind {A B} f (m : M helper A) (k : A -> M helper B) :
  keeps f m -> (forall a, keeps f (k a)) -> keeps f (bind m k).
Proof.
  intros Hm Hk h. unfold bind. specialize (Hm h).
  destruct (m h) as [[a|e] h1]; simpl in *.
  - rewrite Hk. exact Hm.
  - exact Hm.
Qed.

Lemma keeps_try_except {A} f (m : M helper A) cls h' :
  keeps f m -> (forall e, keeps f (h' e)) -> keeps f (try_except m cls h').
Proof.
  intros Hm Hh h. unfold try_except. specialize (Hm h).
  destruct (m h) as [[a|e] h1]; simpl in *; [exact Hm|].
  destruct (caught_by e cls); simpl; [|exact Hm].
  rewrite Hh. exact Hm.
Qed.

Lemma keeps_try_finally {A} f (m : M helper A) g :
  keeps f m -> keeps f g -> keeps f (try_finally m g).
Proof.
  intros Hm Hg h. unfold try_finally. specialize (Hm h).
  destruct (m h) as [r h1]. specialize (Hg h1).
  destruct (g h1) as [[u|e] h2]; simpl in *; congruence.
Qed.

Lemma keeps_get_connection f : f EvConnect = false -> keeps f _get_connection.
Proof.
  intros Hf h. unfold _get_connection.
  destruct (negb (connection h) || negb (conn_open pymysql (server h))); [|reflexivity].
  pose proof (keeps_driver_call f EvConnect (pymysql_connect pymysql) Hf h) as Hq.
  destruct (driver_call EvConnect (pymysql_connect pymysql) h) as [[u|e] h1]; exact Hq.
Qed.

(** Runs the code in [H] through: every call whose outcome decides the
    next step is split into its outcomes, and the impossible ones go. *)
Ltac crunch H :=
  repeat (cbn [fst snd server log connection] in H;
          match type of H with
          | context [match ?x with _ => _ end] =>
              lazymatch x with
              | context [match _ with _ => _ end] => fail
              | _ => destruct x eqn:?
              end
          end);
  try discriminate H.

(** The state [_get_connection] leaves, when it returns. *)
Lemma get_connection_returns h h0 :
  _get_connection h = (Ret tt, h0) ->
  connection h0 = true /\ log h0 = (log h ++ connect_events h)%list.
Proof.
  unfold _get_connection, connect_events.
  destruct (connection h) eqn:Hc; simpl.
  - destruct (conn_open pymysql (server h)) eqn:Ho; simpl.
    + intros H. inversion H; subst h0. rewrite Hc, app_nil_r. auto.
    + unfold driver_call. destruct (pymysql_connect pymysql (server h)) as [[u|e] s'];
        intros H; inversion H; subst h0; simpl; auto.
  - unfold driver_call. destruct (pymysql_connect pymysql (server h)) as [[u|e] s'];
      intros H; inversion H; subst h0; simpl; auto.
Qed.

(** How a cursor scope that returns has gone: connection, cursor, body,
    commit and close, in this order and all without raising. *)
Lemma get_cursor_returns {A} (body : cursor -> M helper A) h a h' :
  _get_cursor body h = (Ret a, h') ->
  exists h0 c h1 h2 s3 s4,
    _get_connection h = (Ret tt, h0)
    /\ driver_call EvCursor (conn_cursor pymysql) h0 = (Ret c, h1)
    /\ body c h1 = (Ret a, h2)
    /\ conn_commit pymysql (server h2) = (Ret tt, s3)
    /\ cursor_close pymysql c s3 = (Ret tt, s4)
    /\ h' = {| connection := connection h2; server := s4;
               log := (log h2 ++ [EvCommit; EvCursorClose c])%list |}.
Proof.
  intros H. unfold _get_cursor in H.
  cbv [bind try_except try_finally rollback_and_reraise raise ret] in H.
  destruct (_get_connection h) as [[[]|e] h0] eqn:Hc; [|discriminate H].
  destruct (driver_call EvCursor (conn_cursor pymysql) h0) as [[c|e] h1] eqn:Hk.
  2:{ crunch H. }
  destruct (body c h1) as [[a'|e] h2] eqn:Hb.
  2:{ crunch H. }
  unfold driver_call in H.
  destruct (conn_commit pymysql (server h2)) as [[[]|e] s3] eqn:Hcommit.
  2:{ crunch H. }
  cbn [fst snd server log connection] in H.
  destruct (cursor_close pymysql c s3) as [[[]|e] s4] eqn:Hclose; [|discriminate H].
  inversion H; subst a' h'. exists h0, c, h1, h2, s3, s4.
  rewrite <- app_assoc. auto 10.
Qed.

Lemma driver_call_returns {A} ev (op : store -> result A * store) h r h' :
  driver_call ev op h = (r, h') ->
  op (server h) = (r, server h') /\ log h' = (log h ++ [ev])%list
  /\ connection h' = connection h.
Proof.
  unfold driver_call. destruct (op (server h)) as [r0 s0] eqn:E.
  intros H. inversion H; subst r0 h'. simpl. auto.
Qed.

(** Closes one path of a cursor scope, whose outcome [H] gives: the
    decisions added are those the path names. *)
Ltac scope_path H E :=
  inversion H; subst; clear H;
  eexists; split;
  [ cbn [fst snd log server connection]; unfold decisions;
    rewrite ?List.filter_app; cbn [List.filter is_decision];
    rewrite <- ?app_assoc; cbn [app]; rewrite E; reflexivity
  | split; [unfold scope_decisions; auto
           | intros ? ?; first [discriminate | reflexivity]] ].

(** Whatever the driver answers, a cursor scope whose body decides
    nothing itself commits at most once, rolls back at most once and
    never commits after a rollback; it returns only after one commit
    and no rollback. *)
Lemma get_cursor_decisions {A} (body : cursor -> M helper A) :
  (forall c, keeps is_decision (body c)) ->
  forall h, exists ds,
    decisions (log (snd (_get_cursor body h))) = (decisions (log h) ++ ds)%list
    /\ scope_decisions ds
    /\ (forall a, fst (_get_cursor body h) = Ret a -> ds = [EvCommit]).
Proof.
  intros Hbody h. destruct (_get_cursor body h) as [r h'] eqn:H. cbn [fst snd].
  unfold _get_cursor in H.
  cbv [bind try_except try_finally rollback_and_reraise raise ret] in H.
  pose proof (keeps_get_connection is_decision eq_refl h) as E0.
  destruct (_get_connection h) as [[[]|e] h0]; cbn [snd] in E0.
  2:{ inversion H; subst. exists []. rewrite app_nil_r. split; [exact E0|].
      split; [unfold scope_decisions; auto|discriminate]. }
  unfold driver_call in H.
  destruct (conn_cursor pymysql (server h0)) as [[c|e] s1];
    cbn [fst snd server log connection] in H.
  2:{ destruct (caught_by e Exception).
      - destruct (conn_rollback pymysql s1) as [[u|e'] s2]; scope_path H E0.
      - scope_path H E0. }
  pose proof (Hbody c {| connection := connection h0; server := s1;
                         log := (log h0 ++ [EvCursor])%list |}) as E2.
  destruct (body c _) as [[a|e] h2]; cbn [snd log] in E2;
    rewrite List.filter_app in E2; cbn [List.filter is_decision] in E2;
    rewrite app_nil_r, E0 in E2; cbn [server log connection fst snd] in H.
  - destruct (conn_commit pymysql (server h2)) as [[u|e] s3];
      cbn [fst snd server log connection] in H.
    + destruct (cursor_close pymysql c s3) as [[u'|e'] s4]; scope_path H E2.
    + destruct (caught_by e Exception); cbn [fst snd server log connection] in H.
      * destruct (conn_rollback pymysql s3) as [[u'|e'] s4];
          cbn [fst snd server log connection] in H;
          destruct (cursor_close pymysql c s4) as [[u''|e''] s5]; scope_path H E2.
      * destruct (cursor_close pymysql c s3) as [[u'|e'] s4]; scope_path H E2.
  - destruct (caught_by e Exception); cbn [fst snd server log connection] in H.
    + destruct (conn_rollback pymysql (server h2)) as [[u'|e'] s4];
        cbn [fst snd server log connection] in H;
        destruct (cursor_close pymysql c s4) as [[u''|e''] s5]; scope_path H E2.
    + destruct (cursor_close pymysql c (server h2)) as [[u'|e'] s4]; scope_path H E2.
Qed.

Lemma log_and_reraise_same {A} (m : M helper A) h : log_and_reraise m h = m h.
Proof.
  unfold log_and_reraise, try_except, raise.
  destruct (m h) as [[a|e] h1]; [reflexivity|]. destruct (caught_by e pymysql_Error); reflexivity.
Qed.

(** A method call decides once: at most one commit and one rollback,
    no commit after a rollback, and exactly one commit and no rollback
    when the call returns. *)
Definition decides_once {A} (m : M helper A) (h : helper) : Prop :=
  exists ds,
    decisions (log (snd (m h))) = (decisions (log h) ++ ds)%list
    /\ scope_decisions ds
    /\ (forall a, fst (m h) = Ret a -> ds = [EvCommit]).

Lemma decides_once_scope {A} (body : cursor -> M helper A) h :
  (forall c, keeps is_decision (body c)) ->
  decides_once (log_and_reraise (_get_cursor body)) h.
Proof.
  intros Hbody. unfold decides_once. rewrite log_and_reraise_same.
  exact (get_cursor_decisions body Hbody h).
Qed.

Lemma decides_once_emit {A} ev (m : M helper A) h :
  is_decision ev = false ->
  decides_once m (snd (emit ev h)) -> decides_once (do! emit ev in m) h.
Proof.
  intros Hev (ds & Hds & Hshape & Hret). exists ds.
  change ((do! emit ev in m) h) with (m (snd (emit ev h))).
  split; [|split; assumption].
  rewrite Hds. cbn [emit snd log]. unfold decisions. rewrite List.filter_app.
  cbn [List.filter]. rewrite Hev. now rewrite app_nil_r.
Qed.

Lemma decides_once_then {A B} (m : M helper A) (k : A -> M helper B) h :
  decides_once m h -> (forall a, keeps is_decision (k a)) ->
  decides_once (bind m k) h.
Proof.
  intros (ds & Hds & Hshape & Hret) Hk. exists ds. unfold bind.
  destruct (m h) as [[a|e] h1]; cbn [fst snd] in *.
  - split; [|split; [exact Hshape|intros _ _; exact (Hret a eq_refl)]].
    unfold decisions in *. now rewrite (Hk a h1).
  - split; [exact Hds|]. split; [exact Hshape|intros b Hb; discriminate Hb].
Qed.

Lemma execute_non_query_decides sql params h :
  decides_once (execute_non_query sql params) h.
Proof.
  unfold execute_non_query. apply decides_once_emit; [reflexivity|].
  apply decides_once_scope. intros c. now apply keeps_driver_call.
Qed.

(** The transactions of the query methods.  Whatever the driver
    answers, one call of [execute_query], of [execute_non_query], of
    [execute_many] with parameters, or of [table_exists] commits at most
    once, rolls back at most once and never commits after a rollback; a
    call that returns has committed exactly once and not rolled back. *)
Theorem query_methods_decide_once sql params param_list name schema h :
  decides_once (execute_query sql params) h
  /\ decides_once (execute_non_query sql params) h
  /\ (param_list <> [] -> decides_once (execute_many sql param_list) h)
  /\ decides_once (table_exists name schema) h.
Proof.
  split; [|split; [|split]].
  - apply decides_once_scope. intros c.
    apply keeps_bind; [now apply keeps_driver_call|intros _; now apply keeps_driver_call].
  - apply execute_non_query_decides.
  - intros Hne. destruct param_list as [|ps param_list]; [contradiction|].
    apply decides_once_scope. intros c. now apply keeps_driver_call.
  - unfold table_exists. apply decides_once_then.
    + apply get_cursor_decisions. intros c.
      apply keeps_bind; [now apply keeps_driver_call|intros; apply keeps_ret].
    + intros c. apply keeps_bind; [now apply keeps_driver_call|intros; apply keeps_ret].
Qed.

Lemma execute_non_query_trace sql params h z h' :
  execute_non_query sql params h = (Ret z, h') ->
  exists c,
    log h' = (log h ++ EvNonQuery sql (params_or_empty params) :: connect_events h
              ++ [EvCursor; EvExecute c sql (params_or_empty params);
                  EvCommit; EvCursorClose c])%list
    /\ connection h' = true
    /\ exists s s', cursor_execute pymysql c sql (params_or_empty params) s = (Ret z, s').
Proof.
  intros H. unfold execute_non_query in H. cbv [bind emit] in H.
  rewrite log_and_reraise_same in H.
  apply get_cursor_returns in H
    as (h0 & c & h1 & h2 & s3 & s4 & Hc & Hk & Hb & Hcommit & Hclose & ->).
  apply get_connection_returns in Hc as [Hconn Hlog0].
  apply driver_call_returns in Hk as (Hk & Hlog1 & Hconn1).
  apply driver_call_returns in Hb as (Hb & Hlog2 & Hconn2).
  exists c. cbn [log connection]. split; [|split].
  - rewrite Hlog2, Hlog1, Hlog0. cbn [log]. unfold connect_events. cbn [connection server].
    rewrite <- !app_assoc. reflexivity.
  - congruence.
  - eauto.
Qed.

(** [execute_non_query], when it returns: the statement was executed
    once, with its parameters, on a cursor opened for it; the commit
    followed, then the close; the connection was made first when it was
    unset or dropped; and the value returned is the one [cursor.execute]
    gave. *)
Theorem execute_non_query_commits sql params h z h' :
  execute_non_query sql params h = (Ret z, h') ->
  exists c,
    log h' = (log h ++ EvNonQuery sql (params_or_empty params) :: connect_events h
              ++ [EvCursor; EvExecute c sql (params_or_empty params);
                  EvCommit; EvCursorClose c])%list
    /\ connection h' = true
    /\ exists s s', cursor_execute pymysql c sql (params_or_empty params) s = (Ret z, s').
Proof. exact (execute_non_query_trace sql params h z h'). Qed.

(** [execute_non_query] on a connected helper, when [cursor.execute]
    raises an exception of class [Exception]: the scope rolls back and
    closes the cursor, no commit is made, and the caller gets the very
    exception the driver raised. *)
Theorem execute_non_query_rolls_back sql params h c s1 e s2 s3 s4 :
  connection h = true ->
  conn_open pymysql (server h) = true ->
  conn_cursor pymysql (server h) = (Ret c, s1) ->
  cursor_execute pymysql c sql (params_or_empty params) s1 = (Raise e, s2) ->
  caught_by e Exception = true ->
  conn_rollback pymysql s2 = (Ret tt, s3) ->
  cursor_close pymysql c s3 = (Ret tt, s4) ->
  execute_non_query sql params h
  = (Raise e,
     {| connection := true; server := s4;
        log := (log h ++ [EvNonQuery sql (params_or_empty params); EvCursor;
                          EvExecute c sql (params_or_empty params);
                          EvRollback; EvCursorClose c])%list |}).
Proof.
  intros Hconn Hopen Hk He Hcaught Hroll Hclose.
  unfold execute_non_query. cbv [bind emit]. rewrite log_and_reraise_same.
  unfold _get_cursor, _get_connection.
  cbv [bind try_except try_finally rollback_and_reraise raise ret driver_call].
  cbn [connection server log]. rewrite Hconn, Hopen.
  cbn [negb orb fst snd connection server log].
  rewrite Hk. cbn [fst snd connection server log]. rewrite He, Hcaught.
  cbn [fst snd connection server log]. rewrite Hroll.
  cbn [fst snd connection server log]. rewrite Hclose.
  rewrite <- !app_assoc. reflexivity.
Qed.

(** [execute_query], when it returns: the rows are those
    [cursor.fetchall] gave, fetched after the statement was executed and
    before the commit; a read commits like a write. *)
Theorem execute_query_returns sql params h rows h' :
  execute_query sql params h = (Ret rows, h') ->
  exists c,
    log h' = (log h ++ connect_events h
              ++ [EvCursor; EvExecute c sql (params_or_empty params); EvFetchAll c;
                  EvCommit; EvCursorClose c])%list
    /\ connection h' = true
    /\ exists s s', cursor_fetchall pymysql c s = (Ret rows, s').
Proof.
  intros H. unfold execute_query in H. rewrite log_and_reraise_same in H.
  apply get_cursor_returns in H
    as (h0 & c & h1 & h2 & s3 & s4 & Hc & Hk & Hb & Hcommit & Hclose & ->).
  apply get_connection_returns in Hc as [Hconn Hlog0].
  apply driver_call_returns in Hk as (Hk & Hlog1 & Hconn1).
  unfold bind in Hb.
  destruct (driver_call _ _ h1) as [[n|e] h1'] eqn:Hx; [|discriminate Hb].
  apply driver_call_returns in Hx as (Hx & Hlogx & Hconnx).
  apply driver_call_returns in Hb as (Hb & Hlog2 & Hconn2).
  exists c. cbn [log connection]. split; [|split].
  - rewrite Hlog2, Hlogx, Hlog1, Hlog0. rewrite <- !app_assoc. reflexivity.
  - congruence.
  - eauto.
Qed.

(** [execute_many], when it returns: with no parameters it has done
    nothing; otherwise the whole sequence went to the driver in one
    [executemany] call, on one cursor, under one commit, and the value
    returned is the driver's. *)
Theorem execute_many_returns sql param_list h z h' :
  execute_many sql param_list h = (Ret z, h') ->
  (param_list = [] /\ z = 0 /\ h' = h)
  \/ (param_list <> []
      /\ exists c,
           log h' = (log h ++ connect_events h
                     ++ [EvCursor; EvExecuteMany c sql param_list;
                         EvCommit; EvCursorClose c])%list
           /\ connection h' = true
           /\ exists s s', cursor_executemany pymysql c sql param_list s = (Ret z, s')).
Proof.
  intros H. destruct param_list as [|ps param_list].
  - left. inversion H. auto.
  - right. split; [discriminate|]. unfold execute_many in H.
    rewrite log_and_reraise_same in H.
    apply get_cursor_returns in H
      as (h0 & c & h1 & h2 & s3 & s4 & Hc & Hk & Hb & Hcommit & Hclose & ->).
    apply get_connection_returns in Hc as [Hconn Hlog0].
    apply driver_call_returns in Hk as (Hk & Hlog1 & Hconn1).
    apply driver_call_returns in Hb as (Hb & Hlog2 & Hconn2).
    exists c. cbn [log connection]. split; [|split].
    + rewrite Hlog2, Hlog1, Hlog0. rewrite <- !app_assoc. reflexivity.
    + congruence.
    + eauto.
Qed.

(** *** One connection, made when needed *)

Lemma get_connection_log h :
  log (snd (_get_connection h)) = (log h ++ connect_events h)%list.
Proof.
  unfold _get_connection, connect_events.
  destruct (connection h); cbn [negb orb andb].
  - destruct (conn_open pymysql (server h)); cbn [negb].
    + now rewrite app_nil_r.
    + unfold driver_call. destruct (pymysql_connect pymysql (server h)) as [[u|e] s'];
        reflexivity.
  - unfold driver_call. destruct (pymysql_connect pymysql (server h)) as [[u|e] s'];
      reflexivity.
Qed.

Lemma keeps_emit f ev : f ev = false -> keeps f (emit ev).
Proof.
  intros Hev h. unfold emit. cbn [snd log]. rewrite List.filter_app. cbn [List.filter].
  rewrite Hev. apply app_nil_r.
Qed.

(** A cursor scope adds events of a kind only if its own calls or its
    body are of that kind. *)
Lemma keeps_scope {A} f (body : cursor -> M helper A) :
  f EvCursor = false -> f EvCommit = false -> f EvRollback = false ->
  (forall c, f (EvCursorClose c) = false) ->
  (forall c, keeps f (body c)) ->
  keeps f (let! cur := try_except (driver_call EvCursor (conn_cursor pymysql))
                                  Exception rollback_and_reraise in
           try_finally
             (try_except
                (let! a := body cur in
                 do! driver_call EvCommit (conn_commit pymysql) in
                 ret a)
                Exception rollback_and_reraise)
             (driver_call (EvCursorClose cur) (cursor_close pymysql cur))).
Proof.
  intros Hcur Hcommit Hroll Hclose Hbody.
  assert (Hrr : forall B e, keeps f (@rollback_and_reraise B e)).
  { intros B e. apply keeps_bind; [now apply keeps_driver_call|intros; apply keeps_raise]. }
  apply keeps_bind.
  - apply keeps_try_except; [now apply keeps_driver_call|apply Hrr].
  - intros c. apply keeps_try_finally; [|apply keeps_driver_call, Hclose].
    apply keeps_try_except; [|apply Hrr].
    apply keeps_bind; [apply Hbody|intros a].
    apply keeps_bind; [now apply keeps_driver_call|intros; apply keeps_ret].
Qed.

Lemma keeps_get_cursor {A} f (body : cursor -> M helper A) :
  f EvConnect = false ->
  f EvCursor = false -> f EvCommit = false -> f EvRollback = false ->
  (forall c, f (EvCursorClose c) = false) ->
  (forall c, keeps f (body c)) ->
  keeps f (_get_cursor body).
Proof.
  intros Hconnect Hcur Hcommit Hroll Hclose Hbody. unfold _get_cursor.
  apply keeps_bind; [now apply keeps_get_connection|intros _].
  now apply keeps_scope.
Qed.

(** A cursor scope connects when the helper is not connected, and only
    then. *)
Lemma get_cursor_connects {A} (body : cursor -> M helper A) h :
  (forall c, keeps is_connect (body c)) ->
  List.filter is_connect (log (snd (_get_cursor body h)))
  = (List.filter is_connect (log h) ++ connect_events h)%list.
Proof.
  intros Hbody. unfold _get_cursor, bind at 1.
  pose proof (get_connection_log h) as Hlog.
  assert (Hevs : List.filter is_connect (connect_events h) = connect_events h).
  { unfold connect_events. destruct (_ && _); reflexivity. }
  destruct (_get_connection h) as [[[]|e] h0]; cbn [snd] in *.
  - rewrite (keeps_scope is_connect body eq_refl eq_refl eq_refl
               (fun _ => eq_refl) Hbody h0).
    now rewrite Hlog, List.filter_app, Hevs.
  - now rewrite Hlog, List.filter_app, Hevs.
Qed.

Lemma execute_non_query_connects sql params h :
  List.filter is_connect (log (snd (execute_non_query sql params h)))
  = (List.filter is_connect (log h) ++ connect_events h)%list.
Proof.
  unfold execute_non_query.
  change ((do! emit (EvNonQuery sql (params_or_empty params)) in
           log_and_reraise (_get_cursor (fun cur =>
             driver_call (EvExecute cur sql (params_or_empty params))
               (cursor_execute pymysql cur sql (params_or_empty params))))) h)
    with (log_and_reraise (_get_cursor (fun cur =>
             driver_call (EvExecute cur sql (params_or_empty params))
               (cursor_execute pymysql cur sql (params_or_empty params))))
            (snd (emit (EvNonQuery sql (params_or_empty params)) h))).
  rewrite log_and_reraise_same, get_cursor_connects.
  - cbn [emit snd log]. rewrite List.filter_app. cbn [List.filter is_connect].
    now rewrite app_nil_r.
  - intros c. now apply keeps_driver_call.
Qed.

Lemma execute_query_connects sql params h :
  List.filter is_connect (log (snd (execute_query sql params h)))
  = (List.filter is_connect (log h) ++ connect_events h)%list.
Proof.
  unfold execute_query. rewrite log_and_reraise_same. apply get_cursor_connects.
  intros c. apply keeps_bind; [now apply keeps_driver_call|].
  intros _. now apply keeps_driver_call.
Qed.

(** The connection is made once and used again.  A call of
    [execute_non_query] connects exactly when the helper comes in
    without an open connection; when it has returned and the connection
    is still open, the next query or statement does not connect. *)
Theorem connection_is_reused sql1 params1 h z h1 :
  execute_non_query sql1 params1 h = (Ret z, h1) ->
  conn_open pymysql (server h1) = true ->
  List.filter is_connect (log h1)
  = (List.filter is_connect (log h) ++ connect_events h)%list
  /\ forall sql2 params2,
       List.filter is_connect (log (snd (execute_non_query sql2 params2 h1)))
       = List.filter is_connect (log h1)
       /\ List.filter is_connect (log (snd (execute_query sql2 params2 h1)))
          = List.filter is_connect (log h1).
Proof.
  intros H Hopen. split.
  - rewrite <- (execute_non_query_connects sql1 params1 h), H. reflexivity.
  - destruct (execute_non_query_trace _ _ _ _ _ H) as (c & _ & Hconn & _).
    assert (Hnone : connect_events h1 = []).
    { unfold connect_events. now rewrite Hconn, Hopen. }
    intros sql2 params2.
    rewrite execute_non_query_connects, execute_query_connects, Hnone, app_nil_r. auto.
Qed.

(** *** The script runner's transactions *)

Lemma execute_each_commits statements h :
  exists k ds,
    decisions (log (snd (execute_each statements h)))
    = (decisions (log h) ++ replicate k EvCommit ++ ds)%list
    /\ (fst (execute_each statements h) = Ret tt -> k = length statements /\ ds = [])
    /\ (forall e, fst (execute_each statements h) = Raise e ->
          (k < length statements)%nat
          /\ scope_decisions ds
          /\ statements_run (log (snd (execute_each statements h)))
             = (statements_run (log h) ++ take (S k) statements)%list).
Proof.
  revert h. induction statements as [|stmt rest IH]; intros h.
  - exists 0%nat, []. cbn [execute_each ret fst snd replicate app length].
    rewrite app_nil_r. split; [reflexivity|]. split; [auto|discriminate].
  - cbn [execute_each]. unfold bind.
    destruct (execute_non_query_decides stmt None h) as (ds0 & Hd & Hshape & Hret).
    pose proof (execute_non_query_runs stmt None h) as Hx.
    destruct (execute_non_query stmt None h) as [[z|e] h1]; cbn [fst snd] in *.
    + rewrite (Hret z eq_refl) in Hd.
      destruct (IH h1) as (k & ds & Hlog & Hok & Hfail).
      exists (S k), ds. split; [|split].
      * rewrite Hlog, Hd, <- app_assoc. reflexivity.
      * intros Hr. destruct (Hok Hr) as [-> ->]. auto.
      * intros e He. destruct (Hfail e He) as (Hk & Hds & Hrun).
        split; [cbn [length]; lia|]. split; [exact Hds|].
        rewrite Hrun, Hx, <- app_assoc. reflexivity.
    + exists 0%nat, ds0. split; [exact Hd|]. split; [discriminate|].
      intros e' _. split; [cbn [length]; lia|]. split; [exact Hshape|].
      rewrite Hx. cbn [take]. now rewrite take_0.
Qed.

(** [run_script] commits statement by statement, not the script as a
    whole.  When it returns, every statement has had its own commit and
    nothing was rolled back.  When it raises, at statement number [k]
    (counted from 0), the [k] statements before it have been committed
    each on its own and stay so: the failing statement decides for
    itself alone, and no later statement is run. *)
Theorem run_script_commits_each (sql_text : string) (h : helper) :
  exists k ds,
    decisions (log (snd (run_script sql_text h)))
    = (decisions (log h) ++ replicate k EvCommit ++ ds)%list
    /\ (fst (run_script sql_text h) = Ret tt ->
          k = length (script_statements sql_text) /\ ds = [])
    /\ (forall e, fst (run_script sql_text h) = Raise e ->
          (k < length (script_statements sql_text))%nat
          /\ scope_decisions ds
          /\ statements_run (log (snd (run_script sql_text h)))
             = (statements_run (log h) ++ take (S k) (script_statements sql_text))%list).
Proof. unfold run_script. apply execute_each_commits. Qed.

(** A script in which no line is kept (blank lines and comments only,
    or nothing at all) leaves the helper as it is: no statement, no
    cursor, not even a connection. *)
Theorem run_script_nothing_kept (sql_text : string) (h : helper) :
  kept_lines sql_text = [] -> run_script sql_text h = (Ret tt, h).
Proof.
  intros Hkept. unfold run_script. rewrite script_statements_split, Hkept. reflexivity.
Qed.

(** *** The existence check *)

(** [table_exists], when it returns: the catalog query was executed with
    the schema (or [None]) first and the table name second, its cursor
    scope committed and closed the cursor, and only then was the row
    fetched, from the closed cursor; the answer is whether that fetch
    gave a row. *)
Theorem table_exists_returns name schema h present h' :
  table_exists name schema h = (Ret present, h') ->
  exists c r,
    log h' = (log h ++ connect_events h
              ++ [EvCursor;
                  EvExecute c TABLE_EXISTS_SQL [py_optional schema; PyStr name];
                  EvCommit; EvCursorClose c; EvFetchOne c])%list
    /\ present = (match r with Some _ => true | None => false end)
    /\ exists s, cursor_fetchone pymysql c s = (Ret r, server h').
Proof.
  intros H. unfold table_exists in H. unfold bind at 1 in H.
  destruct (_get_cursor _ h) as [[c0|e] hc] eqn:E; [|discriminate H].
  apply get_cursor_returns in E
    as (h0 & c & h1 & h2 & s3 & s4 & Hc & Hk & Hb & Hcommit & Hclose & ->).
  apply get_connection_returns in Hc as [Hconn Hlog0].
  apply driver_call_returns in Hk as (Hk & Hlog1 & Hconn1).
  unfold bind in Hb.
  destruct (driver_call _ _ h1) as [[n|e] h1'] eqn:Hx; [|discriminate Hb].
  apply driver_call_returns in Hx as (Hx & Hlogx & Hconnx).
  inversion Hb; subst c0 h2. clear Hb.
  unfold bind in H.
  destruct (driver_call _ _ _) as [[r|e] hf] eqn:Hf; [|discriminate H].
  apply driver_call_returns in Hf as (Hf & Hlogf & Hconnf).
  inversion H; subst present h'. clear H.
  exists c, r. split; [|split].
  - rewrite Hlogf. cbn [log]. rewrite Hlogx, Hlog1, Hlog0.
    rewrite <- !app_assoc. reflexivity.
  - reflexivity.
  - cbn [server] in Hf. eauto.
Qed.

Lemma keeps_log_and_reraise {A} f (m : M helper A) : keeps f m -> keeps f (log_and_reraise m).
Proof. intros Hm h. rewrite log_and_reraise_same. apply Hm. Qed.

Lemma execute_non_query_fetches_nothing sql params :
  keeps is_fetch_one (execute_non_query sql params).
Proof.
  unfold execute_non_query. apply keeps_bind; [now apply keeps_emit|intros _].
  apply keeps_log_and_reraise. apply keeps_get_cursor; try reflexivity.
  intros c. now apply keeps_driver_call.
Qed.

(** [ensure_table] without a table name, or with the empty name: the
    existence check is left out (no row is fetched), and the statement
    is handed to the executor on every call, whatever the database
    holds. *)
Theorem ensure_table_without_name sql table_name schema h :
  table_name = None \/ table_name = Some "" ->
  ensure_table sql table_name schema h = (do! execute_non_query sql None in ret tt) h
  /\ statements_run (log (snd (ensure_table sql table_name schema h)))
     = (statements_run (log h) ++ [sql])%list
  /\ List.filter is_fetch_one (log (snd (ensure_table sql table_name schema h)))
     = List.filter is_fetch_one (log h).
Proof.
  intros Hname.
  assert (Hrun : ensure_table sql table_name schema h
                 = (do! execute_non_query sql None in ret tt) h).
  { destruct Hname as [->| ->]; reflexivity. }
  rewrite Hrun. split; [reflexivity|]. unfold bind.
  pose proof (execute_non_query_runs sql None h) as Hx.
  pose proof (execute_non_query_fetches_nothing sql None h) as Hf.
  destruct (execute_non_query sql None h) as [[z|e] h1]; cbn [fst snd ret] in *; auto.
Qed.

(** [ensure_table] when the existence check raises: the exception goes
    to the caller as it is, in the state the check left, and the
    creation statement is not run. *)
Theorem ensure_table_check_raises sql name schema h e h1 :
  PyStr.truthy name = true ->
  table_exists name schema h = (Raise e, h1) ->
  ensure_table sql (Some name) schema h = (Raise e, h1)
  /\ statements_run (log h1) = statements_run (log h).
Proof.
  intros Hn Ht. split; [exact (ensure_table_failed sql name schema h e h1 Hn Ht)|].
  pose proof (quiet_table_exists name schema h) as Hq. rewrite Ht in Hq. exact Hq.
Qed.

(** *** Closing *)

Lemma close_log h : log (snd (close h)) = log h.
Proof.
  unfold close. destruct (connection h && conn_open pymysql (server h)); [|reflexivity].
  destruct (conn_close (server h)) as [[u|e] s']; reflexivity.
Qed.

Lemma closed_reconnects h h' :
  close h = (Ret tt, h') ->
  connection h' && conn_open pymysql (server h') = false.
Proof.
  unfold close. destruct (connection h && conn_open pymysql (server h)) eqn:E.
  - destruct (conn_close (server h)) as [[u|e] s']; intros H; inversion H; reflexivity.
  - intros H. inversion H; subst h'. exact E.
Qed.

(** [close], when it returns: the helper holds no open connection, so a
    second [close] does nothing, and the next use of the helper opens a
    new connection; [close] itself asks nothing else of the driver. *)
Theorem close_then_reconnect h h' :
  close h = (Ret tt, h') ->
  close h' = (Ret tt, h')
  /\ log h' = log h
  /\ connect_events h' = [EvConnect]
  /\ forall sql params,
       List.filter is_connect (log (snd (execute_query sql params h')))
       = (List.filter is_connect (log h') ++ [EvConnect])%list.
Proof.
  intros H. pose proof (closed_reconnects h h' H) as Hclosed.
  assert (Hev : connect_events h' = [EvConnect]).
  { unfold connect_events. now rewrite Hclosed. }
  split; [|split; [|split]].
  - unfold close. now rewrite Hclosed.
  - rewrite <- (close_log h), H. reflexivity.
  - exact Hev.
  - intros sql params. now rewrite execute_query_connects, Hev.
Qed.

(** Leaving a [with] block closes the helper on every exit: whether the
    body returned or raised, its outcome is the outcome of the block
    once [close] has gone through, and the helper is left without an
    open connection. *)
Theorem with_helper_closes {A} (body : M helper A) h h' :
  close (snd (body h)) = (Ret tt, h') ->
  with_helper body h = (fst (body h), h')
  /\ close h' = (Ret tt, h')
  /\ connect_events h' = [EvConnect].
Proof.
  intros H. pose proof (closed_reconnects _ h' H) as Hclosed. split; [|split].
  - unfold with_helper, __exit__, try_finally.
    destruct (body h) as [r h1]. cbn [fst snd] in *. rewrite H. reflexivity.
  - unfold close. now rewrite Hclosed.
  - unfold connect_events. now rewrite Hclosed.
Qed.

(** [create_database_if_not_exists], when it returns: one statement was
    run, built from the three names as they were given, with no
    parameter handed to the driver, and committed. *)
Theorem create_database_runs_one_statement dbname charset collate h h' :
  create_database_if_not_exists dbname charset collate h = (Ret tt, h') ->
  exists c,
    log h' = (log h ++ EvNonQuery (create_database_sql dbname charset collate) []
              :: connect_events h
              ++ [EvCursor; EvExecute c (create_database_sql dbname charset collate) [];
                  EvCommit; EvCursorClose c])%list.
Proof.
  intros H. unfold create_database_if_not_exists, bind in H.
  destruct (execute_non_query _ None h) as [[z|e] h1] eqn:E; [|discriminate H].
  inversion H; subst h'. clear H.
  destruct (execute_non_query_trace _ _ _ _ _ E) as (c & Hlog & _).
  exists c. exact Hlog.
Qed.

(** *** When the driver fails around the body *)

(** A helper that cannot connect.  When [pymysql.connect] raises, a
    query and a statement raise that exception; nothing more was asked
    of the driver (no cursor, no rollback, no close), and
    [self.connection] is what it was. *)
Theorem connect_failure_stops sql params h e s' :
  connection h && conn_open pymysql (server h) = false ->
  pymysql_connect pymysql (server h) = (Raise e, s') ->
  execute_query sql params h
  = (Raise e, {| connection := connection h; server := s';
                 log := (log h ++ [EvConnect])%list |})
  /\ execute_non_query sql params h
     = (Raise e, {| connection := connection h; server := s';
                    log := (log h ++ [EvNonQuery sql (params_or_empty params);
                                      EvConnect])%list |}).
Proof.
  intros Hclosed Hconnect.
  assert (Hneeds : negb (connection h) || negb (conn_open pymysql (server h)) = true).
  { destruct (connection h), (conn_open pymysql (server h)); try reflexivity.
    discriminate Hclosed. }
  split.
  - unfold execute_query. rewrite log_and_reraise_same.
    unfold _get_cursor, bind at 1, _get_connection, driver_call.
    rewrite Hneeds, Hconnect. reflexivity.
  - unfold execute_non_query. cbv [bind emit]. rewrite log_and_reraise_same.
    unfold _get_cursor, bind at 1, _get_connection, driver_call.
    cbn [connection server log]. rewrite Hneeds, Hconnect.
    rewrite <- app_assoc. reflexivity.
Qed.

(** When [conn.cursor()] raises an exception of class [Exception], the
    scope rolls back, although nothing was executed, and closes no
    cursor, there being none; the body is not run.  The caller gets the
    cursor's exception, or the rollback's when the rollback raises
    too. *)
Theorem cursor_failure_rolls_back {A} (body : cursor -> M helper A) h h0 e s1 r s2 :
  _get_connection h = (Ret tt, h0) ->
  conn_cursor pymysql (server h0) = (Raise e, s1) ->
  caught_by e Exception = true ->
  conn_rollback pymysql s1 = (r, s2) ->
  _get_cursor body h
  = (match r with Ret _ => Raise e | Raise e' => Raise e' end,
     {| connection := connection h0; server := s2;
        log := (log h0 ++ [EvCursor; EvRollback])%list |}).
Proof.
  intros Hc Hk Hcaught Hroll. unfold _get_cursor, bind at 1. rewrite Hc.
  cbv [bind try_except rollback_and_reraise raise driver_call].
  rewrite Hk. cbn [fst snd connection server log]. rewrite Hcaught.
  cbn [fst snd connection server log]. rewrite Hroll, <- app_assoc.
  destruct r as [[]|e']; reflexivity.
Qed.

(** The exception that leaves the scope is the one raised last.  When
    the body raises and the rollback raises too, the caller gets the
    rollback's exception, not the body's.  When the body returns, the
    commit goes through and closing the cursor raises, the caller gets
    that exception, and no value, although the transaction is
    committed and is not rolled back. *)
Theorem scope_raises_latest {A} (body : cursor -> M helper A) h h0 c h1 :
  _get_connection h = (Ret tt, h0) ->
  driver_call EvCursor (conn_cursor pymysql) h0 = (Ret c, h1) ->
  (forall e h2 e' s3,
      body c h1 = (Raise e, h2) ->
      caught_by e Exception = true ->
      conn_rollback pymysql (server h2) = (Raise e', s3) ->
      fst (cursor_close pymysql c s3) = Ret tt ->
      fst (_get_cursor body h) = Raise e')
  /\ (forall a h2 s3 e' s4,
        body c h1 = (Ret a, h2) ->
        conn_commit pymysql (server h2) = (Ret tt, s3) ->
        cursor_close pymysql c s3 = (Raise e', s4) ->
        fst (_get_cursor body h) = Raise e'
        /\ decisions (log (snd (_get_cursor body h)))
           = (decisions (log h2) ++ [EvCommit])%list).
Proof.
  intros Hc Hk. rewrite (get_cursor_entered body h h0 c h1 Hc Hk). split.
  - intros e h2 e' s3 Hb Hcaught Hroll Hclose.
    cbv [try_finally try_except bind driver_call ret raise rollback_and_reraise].
    rewrite Hb, Hcaught. cbn [fst snd connection server log]. rewrite Hroll.
    cbn [fst snd connection server log].
    destruct (cursor_close pymysql c s3) as [[[]|e''] s4]; [reflexivity|discriminate Hclose].
  - intros a h2 s3 e' s4 Hb Hcommit Hclose.
    cbv [try_finally try_except bind driver_call ret raise rollback_and_reraise].
    rewrite Hb. cbn [fst snd connection server log]. rewrite Hcommit.
    cbn [fst snd connection server log]. rewrite Hclose.
    cbn [fst snd connection server log]. split; [reflexivity|].
    unfold decisions. rewrite !List.filter_app. cbn [List.filter is_decision].
    now rewrite app_nil_r.
Qed.

End MySqlHelper.

(** ** Facts about the string functions *)

Section PyStrFacts.

Import PyStr.

Local Arguments lower_char : simpl never.
Local Arguments isspace : simpl never.

Lemma isspace_lower_char c : isspace (lower_char c) = isspace c.
Proof. destruct c as [[] [] [] [] [] [] [] []]; reflexivity. Qed.

(** A string whose lowered form starts with [p] is a scheme that lowers
    to [p], followed by what the slice keeps. *)
Lemma startswith_lower p s :
  startswith p (lower s) = true ->
  exists scheme, s = scheme ++ slice_from (String.length p) s /\ lower scheme = p.
Proof.
  revert s. induction p as [|a p IH]; intros s H.
  - exists EmptyString. split; reflexivity.
  - destruct s as [|b s]; simpl in H; [discriminate|].
    apply andb_prop in H as [Hab Hp]. apply Ascii.eqb_eq in Hab.
    destruct (IH s Hp) as (scheme & Hs & Hl).
    exists (String b scheme). split.
    + change (String b s = String b (scheme ++ slice_from (String.length p) s)).
      f_equal. exact Hs.
    + simpl. now rewrite Hl, Hab.
Qed.

Lemma split_head_whole c s : contains_char c s = false -> split_head c s = s.
Proof.
  induction s as [|a s IH]; simpl; [reflexivity|].
  intros H. apply orb_false_elim in H as [Ha Hs]. rewrite Ha, IH; auto.
Qed.

Lemma lstrip_clean_head s : clean_head (lstrip s).
Proof.
  induction s as [|c s IH]; simpl; [exact I|].
  destruct (isspace c) eqn:Hc; [exact IH|exact Hc].
Qed.

Lemma rstrip_clean_head s : clean_head s -> clean_head (rstrip s).
Proof.
  destruct s as [|c s]; simpl; [auto|]. intros Hc.
  destruct (rstrip s); [rewrite Hc|]; exact Hc.
Qed.

Lemma strip_clean_head s : clean_head (strip s).
Proof. apply rstrip_clean_head, lstrip_clean_head. Qed.

Lemma lower_clean_head s : clean_head s -> clean_head (lower s).
Proof. destruct s as [|c s]; simpl; [auto|]. now rewrite isspace_lower_char. Qed.

Lemma split_head_clean_head c s : clean_head s -> clean_head (split_head c s).
Proof.
  destruct s as [|a s]; simpl; [auto|]. intros Ha.
  destruct (Ascii.eqb a c); [exact I|exact Ha].
Qed.

Lemma lstrip_of_clean_head s : clean_head s -> lstrip s = s.
Proof. destruct s as [|c s]; simpl; [auto|]. now intros ->. Qed.

(** On a string that starts clean, [strip] only trims the end. *)
Lemma strip_of_clean_head s : clean_head s -> strip s = rstrip s.
Proof. intros H. unfold strip. now rewrite lstrip_of_clean_head. Qed.

Lemma rstrip_of_clean_last s : clean_last s -> rstrip s = s.
Proof.
  induction s as [|c s IH]; [reflexivity|].
  intros H. destruct s as [|c' s'].
  - simpl in *. now rewrite H.
  - change (clean_last (String c' s')) in H. specialize (IH H).
    change (rstrip (String c (String c' s')))
      with (match rstrip (String c' s') with
            | EmptyString => if isspace c then EmptyString else String c EmptyString
            | r => String c r
            end).
    now rewrite IH.
Qed.

Lemma lower_char_idem c : lower_char (lower_char c) = lower_char c.
Proof. destruct c as [[] [] [] [] [] [] [] []]; reflexivity. Qed.

Lemma lower_idem s : lower (lower s) = lower s.
Proof. induction s as [|c s IH]; simpl; [reflexivity|]. now rewrite lower_char_idem, IH. Qed.

Lemma lstrip_lower s : lstrip (lower s) = lower (lstrip s).
Proof.
  induction s as [|c s IH]; simpl; [reflexivity|].
  rewrite isspace_lower_char. destruct (isspace c); [exact IH|reflexivity].
Qed.

Lemma rstrip_lower s : rstrip (lower s) = lower (rstrip s).
Proof.
  induction s as [|c s IH]; simpl; [reflexivity|].
  rewrite IH, isspace_lower_char.
  destruct (rstrip s); simpl; [destruct (isspace c)|]; reflexivity.
Qed.

Lemma strip_lower s : strip (lower s) = lower (strip s).
Proof. unfold strip. now rewrite lstrip_lower, rstrip_lower. Qed.

Lemma rstrip_idem s : rstrip (rstrip s) = rstrip s.
Proof.
  induction s as [|c s IH]; simpl; [reflexivity|].
  destruct (rstrip s) as [|d r] eqn:E.
  - destruct (isspace c) eqn:Hc; simpl; [reflexivity|now rewrite Hc].
  - change (rstrip (String c (String d r)))
      with (match rstrip (String d r) with
            | EmptyString => if isspace c then EmptyString else String c EmptyString
            | r' => String c r'
            end).
    now rewrite IH.
Qed.

Lemma strip_idem s : strip (strip s) = strip s.
Proof.
  rewrite (strip_of_clean_head (strip s)) by apply strip_clean_head.
  unfold strip. apply rstrip_idem.
Qed.

End PyStrFacts.

(** ** backend/app.py *)

(** A JSON response and its status code. *)
Record response : Type := {
  status : Z;
  body : gmap string pyval
}.

(** [jsonify(d)] and [jsonify(d), code] *)
Definition jsonify (d : gmap string pyval) : response := {| status := 200; body := d |}.
Definition jsonify_with (d : gmap string pyval) (code : Z) : response :=
  {| status := code; body := d |}.

(** The request at hand: its headers and its JSON body (an object with
    string fields, [None] when there is none).  [get_json] is what
    [request.get_json()] has returned: a request for which Flask answers
    by itself (a body that is no JSON) and a field that is no string lie
    outside this type, and the properties of the handlers are stated for
    the requests inside it. *)
Record flask_request : Type := {
  headers : gmap string string;
  get_json : option (gmap string string)
}.

(** A row of the [users] table, with the columns [register] writes and
    [login] reads. *)
Record user_row : Type := {
  user_id : Z;
  user_username : string;
  user_email : string;
  user_password_hash : string
}.

(** What the gate does besides answering: the calls of the token
    verifier and the entries into the wrapped handler. *)
Inductive call : Type :=
| CallDecode (token : string)
| CallHandler.

(** The state a handler runs in: the request, the clock, [flask.g]'s
    [user] attribute ([None] while unset), the [users] table with its
    auto-increment counter, the salt the hasher will draw, and the calls
    so far. *)
Record app : Type := {
  request : flask_request;
  utcnow : Z;
  g_user : option (gmap string pyval);
  users : list user_row;
  next_id : Z;
  salt : string;
  calls : list call
}.

Definition set_g_user (u : option (gmap string pyval)) : M app unit :=
  fun a => (Ret tt, {| request := request a; utcnow := utcnow a; g_user := u;
                       users := users a; next_id := next_id a; salt := salt a;
                       calls := calls a |}).

(** The next request, met in the state the last one left. *)
Definition with_request (r : flask_request) (a : app) : app :=
  {| request := r; utcnow := utcnow a; g_user := g_user a; users := users a;
     next_id := next_id a; salt := salt a; calls := calls a |}.

Definition note (c : call) : M app unit :=
  fun a => (Ret tt, {| request := request a; utcnow := utcnow a; g_user := g_user a;
                       users := users a; next_id := next_id a; salt := salt a;
                       calls := calls a ++ [c] |}).

(** The database engine is outside the repository.  The statements
    [register] and [login] send are read against the table held as a
    list of rows on a server that answers, emails compared exactly (the
    helper's own error paths are those of [execute_query] and
    [execute_non_query] above):
    [SELECT ... FROM users WHERE email=%s] returns the rows with that
    email, in table order.  The table has the columns the [INSERT] of
    [register] names ([init_db.py] creates it without [username]). *)
Definition select_by_email (email : string) (table : list user_row) : list user_row :=
  List.filter (fun r => String.eqb (user_email r) email) table.

(** [INSERT INTO users (username, email, password_hash)] appends a row
    under the next id; the [UNIQUE] email column of the schema refuses a
    second row with the same email. *)
Definition insert_user (username email password_hash : string) : M app unit :=
  fun a =>
    match select_by_email email (users a) with
    | [] =>
        (Ret tt,
         {| request := request a; utcnow := utcnow a; g_user := g_user a;
            users := users a ++ [{| user_id := next_id a; user_username := username;
                                    user_email := email;
                                    user_password_hash := password_hash |}];
            next_id := next_id a + 1; salt := salt a; calls := calls a |})
    | _ => (Raise (mk_exc IntegrityError "Duplicate entry"), a)
    end.

(** [x or y] for an optional string [x]. *)
Definition str_or (x : option string) (y : string) : string :=
  match x with
  | Some s => if PyStr.truthy s then s else y
  | None => y
  end.

(** [not data] for an optional dict. *)
Definition dict_falsy (data : option (gmap string pyval)) : bool :=
  match data with
  | Some d => bool_decide (d = ∅)
  | None => true
  end.

(** What PyJWT's [encode] does to the payload before signing: a
    [datetime] under [exp], [iat] or [nbf] becomes its timestamp. *)
Definition to_timestamp (v : pyval) : pyval :=
  match v with PyDatetime t => PyInt t | _ => v end.

Definition numeric_dates (d : gmap string pyval) : gmap string pyval :=
  alter to_timestamp "exp" (alter to_timestamp "iat" (alter to_timestamp "nbf" d)).

(** The expiry a payload carries. *)
Definition expiry (d : gmap string pyval) : option Z :=
  match d !! "exp" with
  | Some (PyDatetime e) | Some (PyInt e) => Some e
  | _ => None
  end.

(** A payload PyJWT signs and reads back as it is: no registered claim
    besides [exp] (those are validated on their own terms), and no
    [datetime] under another key (JSON has none). *)
Definition plain_payload (d : gmap string pyval) : Prop :=
  (forall k, k ∈ ["iat"; "nbf"; "aud"; "iss"; "sub"; "jti"] -> d !! k = None)
  /\ (forall k t, k <> "exp" -> d !! k <> Some (PyDatetime t)).

(** The payload [login] hands to [create_jwt]. *)
Definition identity (uid : Z) (email : string) : gmap string pyval :=
  <["uid" := PyInt uid]> {[ "email" := PyStr email ]}.

Section App.

(** PyJWT's [encode(payload, key, algorithm)] and
    [decode(token, key, algorithms)], the latter with the time it reads
    off the clock. *)
Variable jwt_encode : gmap string pyval -> string -> string -> string.
Variable jwt_decode : string -> string -> list string -> Z -> result (gmap string pyval).

(** werkzeug's hasher, with the salt it draws, and its checker. *)
Variable generate_password_hash : string -> string -> string.
Variable check_password_hash : string -> string -> bool.

(** [os.environ.get("JWT_SECRET", ...)] *)
Variable JWT_SECRET : string.
Definition JWT_ALG : string := "HS256".
Definition JWT_EXPIRE_HOURS : Z := 24.

(** [now] is [datetime.utcnow()]. *)
Definition create_jwt (payload : gmap string pyval) (now : Z) : string :=
  let exp := now + JWT_EXPIRE_HOURS * 3600 in
  let data := <["exp" := PyDatetime exp]> payload in
  jwt_encode data JWT_SECRET JWT_ALG.

Definition decode_jwt (token : string) (now : Z) : result (option (gmap string pyval)) :=
  match jwt_decode token JWT_SECRET [JWT_ALG] now with
  | Ret claims => Ret (Some claims)
  | Raise e =>
      if caught_by e ExpiredSignatureError then Ret None
      else if caught_by e InvalidTokenError then Ret None
      else Raise e
  end.

Definition get_token_from_header (r : flask_request) : option string :=
  let auth := default "" (headers r !! "Authorization") in
  if PyStr.startswith "bearer " (PyStr.lower auth) then Some (PyStr.slice_from 7 auth)
  else None.

Definition unauthorized : response :=
  jsonify_with {[ "error" := PyStr "unauthorized" ]} 401.

(** The wrapper [require_auth] puts around the handler [fn]. *)
Definition require_auth (fn : M app response) : M app response :=
  fun a =>
    let token := get_token_from_header (request a) in
    (let! data := match token with
                  | Some t =>
                      if PyStr.truthy t
                      then do! note (CallDecode t) in
                           fun a' => (decode_jwt t (utcnow a'), a')
                      else ret None
                  | None => ret None
                  end in
     if dict_falsy data then ret unauthorized
     else do! set_g_user data in
          do! note CallHandler in
          fn) a.

(** [g.user["uid"]] and [g.user["email"]] raise when the attribute or
    the key is missing. *)
Definition me : M app response :=
  fun a =>
    match g_user a with
    | None => (Raise (mk_exc AttributeError "user"), a)
    | Some u =>
        match u !! "uid", u !! "email" with
        | Some uid, Some email =>
            (Ret (jsonify (<["uid" := uid]> {[ "email" := email ]})), a)
        | None, _ => (Raise (mk_exc KeyError "uid"), a)
        | _, None => (Raise (mk_exc KeyError "email"), a)
        end
    end.

(** [(data.get("email") or "").strip().lower()] *)
Definition normalized_email (data : gmap string string) : string :=
  PyStr.lower (PyStr.strip (str_or (data !! "email") "")).

(** [email.split("@")[0] if "@" in email else email] *)
Definition email_prefix (email : string) : string :=
  if PyStr.contains_char "@" email then PyStr.split_head "@" email else email.

Definition register : M app response :=
  fun a =>
    let data := default ∅ (get_json (request a)) in
    let email := normalized_email data in
    let password := str_or (data !! "password") "" in
    let username := PyStr.strip (str_or (data !! "username") (email_prefix email)) in
    if negb (PyStr.truthy email) || negb (PyStr.truthy password)
    then (Ret (jsonify_with {[ "error" := PyStr "email and password required" ]} 400), a)
    else
      match select_by_email email (users a) with
      | _ :: _ =>
          (Ret (jsonify_with {[ "error" := PyStr "email already exists" ]} 409), a)
      | [] =>
          let pwd_hash := generate_password_hash password (salt a) in
          (do! insert_user username email pwd_hash in
           ret (jsonify {[ "message" := PyStr "ok" ]})) a
      end.

Definition login : M app response :=
  fun a =>
    let data := default ∅ (get_json (request a)) in
    let email := normalized_email data in
    let password := str_or (data !! "password") "" in
    if negb (PyStr.truthy email) || negb (PyStr.truthy password)
    then (Ret (jsonify_with {[ "error" := PyStr "email and password required" ]} 400), a)
    else
      match select_by_email email (users a) with
      | [] => (Ret (jsonify_with {[ "error" := PyStr "invalid credentials" ]} 401), a)
      | r :: _ =>
          if negb (check_password_hash (user_password_hash r) password)
          then (Ret (jsonify_with {[ "error" := PyStr "invalid credentials" ]} 401), a)
          else
            let token := create_jwt (<["uid" := PyInt (user_id r)]> {[ "email" := PyStr email ]})
                                    (utcnow a) in
            (Ret (jsonify {[ "token" := PyStr token ]}), a)
      end.

(** *** What the proofs take from PyJWT

    For the server's key and algorithm: a token made from a plain
    payload decodes, before its expiry, to the payload with its dates as
    timestamps; from the expiry on it is refused as expired; a payload
    with no expiry never expires; whatever
    [decode] raises is an [InvalidTokenError]; a token is never the empty
    string. *)
Hypothesis jwt_fresh : forall d e now,
  plain_payload d -> expiry d = Some e -> now < e ->
  jwt_decode (jwt_encode d JWT_SECRET JWT_ALG) JWT_SECRET [JWT_ALG] now
  = Ret (numeric_dates d).

Hypothesis jwt_expired : forall d e now,
  plain_payload d -> expiry d = Some e -> e <= now ->
  exists x, jwt_decode (jwt_encode d JWT_SECRET JWT_ALG) JWT_SECRET [JWT_ALG] now = Raise x
            /\ exc_class x = ExpiredSignatureError.

Hypothesis jwt_unexpiring : forall d now,
  plain_payload d -> d !! "exp" = None ->
  jwt_decode (jwt_encode d JWT_SECRET JWT_ALG) JWT_SECRET [JWT_ALG] now
  = Ret (numeric_dates d).

Hypothesis jwt_raises : forall token now x,
  jwt_decode token JWT_SECRET [JWT_ALG] now = Raise x ->
  caught_by x InvalidTokenError = true.

Hypothesis jwt_nonempty : forall d,
  PyStr.truthy (jwt_encode d JWT_SECRET JWT_ALG) = true.

Lemma identity_plain uid email e :
  plain_payload (<["exp" := PyDatetime e]> (identity uid email)).
Proof.
  unfold identity. split.
  - intros k Hk. repeat (apply elem_of_cons in Hk as [->|Hk]; [reflexivity|]).
    inversion Hk.
  - intros k t Hne. rewrite lookup_insert_ne by congruence.
    destruct (decide (k = "uid")) as [->|Hu]; [now rewrite lookup_insert_eq|].
    rewrite lookup_insert_ne by congruence.
    destruct (decide (k = "email")) as [->|He]; [now rewrite lookup_singleton_eq|].
    now rewrite lookup_singleton_ne by congruence.
Qed.

Lemma numeric_dates_issued uid email e :
  numeric_dates (<["exp" := PyDatetime e]> (identity uid email))
  = <["exp" := PyInt e]> (identity uid email).
Proof.
  unfold numeric_dates, identity.
  rewrite (alter_id to_timestamp _ "nbf").
  2:{ intros x. rewrite !lookup_insert_ne by discriminate.
      rewrite lookup_singleton_ne by discriminate. discriminate. }
  rewrite (alter_id to_timestamp _ "iat").
  2:{ intros x. rewrite !lookup_insert_ne by discriminate.
      rewrite lookup_singleton_ne by discriminate. discriminate. }
  now rewrite alter_insert_eq.
Qed.

Lemma bearer_token r token :
  headers r !! "Authorization" = Some ("Bearer " ++ token) ->
  get_token_from_header r = Some token.
Proof. intros H. unfold get_token_from_header. rewrite H. reflexivity. Qed.

Lemma decode_issued uid email issued now :
  now < issued + JWT_EXPIRE_HOURS * 3600 ->
  decode_jwt (create_jwt (identity uid email) issued) now
  = Ret (Some (<["exp" := PyInt (issued + JWT_EXPIRE_HOURS * 3600)]> (identity uid email))).
Proof.
  intros Hnow. unfold decode_jwt, create_jwt.
  rewrite (jwt_fresh _ (issued + JWT_EXPIRE_HOURS * 3600) now).
  - now rewrite numeric_dates_issued.
  - apply identity_plain.
  - unfold expiry. now rewrite lookup_insert_eq.
  - exact Hnow.
Qed.

(** C1.  A token issued for [uid] and [email] at time [issued] is
    accepted at any time [now] before [issued] plus 24 hours; the claims
    returned are the uid and the email as given, with the expiry; and
    [/api/me], asked with that token as bearer, answers 200 with exactly
    that uid and email. *)
Theorem token_round_trip (uid : Z) (email : string) (issued now : Z) (a : app) :
  now < issued + JWT_EXPIRE_HOURS * 3600 ->
  let token := create_jwt (identity uid email) issued in
  (exists claims,
      decode_jwt token now = Ret (Some claims)
      /\ claims !! "uid" = Some (PyInt uid)
      /\ claims !! "email" = Some (PyStr email)
      /\ dom claims = {[ "uid"; "email"; "exp" ]})
  /\ (utcnow a = now ->
      headers (request a) !! "Authorization" = Some ("Bearer " ++ token) ->
      fst (require_auth me a)
      = Ret (jsonify (<["uid" := PyInt uid]> {[ "email" := PyStr email ]}))).
Proof.
  intros Hnow token. split.
  - eexists. split; [exact (decode_issued uid email issued now Hnow)|].
    unfold identity. split; [|split].
    + now rewrite lookup_insert_ne, lookup_insert_eq.
    + now rewrite !lookup_insert_ne, lookup_singleton_eq.
    + rewrite !dom_insert_L, dom_singleton_L. set_solver.
  - intros Hclock Hauth. unfold require_auth.
    rewrite (bearer_token _ _ Hauth).
    assert (Htruthy : PyStr.truthy token = true) by apply jwt_nonempty.
    rewrite Htruthy.
    unfold bind at 1, bind at 1, note at 1. cbn [utcnow].
    rewrite Hclock. subst token.
    rewrite (decode_issued uid email issued now Hnow).
    unfold dict_falsy. rewrite bool_decide_eq_false_2.
    2:{ intros H. apply (f_equal (fun m => m !! "exp")) in H.
        rewrite lookup_insert_eq, lookup_empty in H. discriminate. }
    unfold bind, set_g_user, note, me, identity. cbn [g_user].
    rewrite lookup_insert_ne by discriminate. rewrite lookup_insert_eq.
    rewrite !lookup_insert_ne by discriminate. rewrite lookup_singleton_eq.
    reflexivity.
Qed.


(** *** The auth gate *)

Lemma gate_without_token (fn : M app response) (a : app) :
  get_token_from_header (request a) = None
  \/ get_token_from_header (request a) = Some EmptyString ->
  require_auth fn a = (Ret unauthorized, a).
Proof. intros [H|H]; unfold require_auth; rewrite H; reflexivity. Qed.

Lemma no_bearer_no_token (r : flask_request) :
  headers r !! "Authorization" = None
  \/ (exists auth, headers r !! "Authorization" = Some auth
                   /\ PyStr.startswith "bearer " (PyStr.lower auth) = false) ->
  get_token_from_header r = None.
Proof.
  unfold get_token_from_header. intros [H|(auth & H & Hs)]; rewrite H.
  - reflexivity.
  - cbn [default from_option id]. now rewrite Hs.
Qed.

(** A correctly signed token whose payload is the empty mapping is
    verified, and refused by the gate all the same: [not data] is true
    of an empty dict. *)
Lemma gate_refuses_empty_claims (fn : M app response) (a : app) :
  headers (request a) !! "Authorization"
  = Some ("Bearer " ++ jwt_encode ∅ JWT_SECRET JWT_ALG) ->
  decode_jwt (jwt_encode ∅ JWT_SECRET JWT_ALG) (utcnow a) = Ret (Some ∅)
  /\ require_auth fn a
     = (Ret unauthorized, snd (note (CallDecode (jwt_encode ∅ JWT_SECRET JWT_ALG)) a)).
Proof.
  intros Hauth.
  assert (Hdec : decode_jwt (jwt_encode ∅ JWT_SECRET JWT_ALG) (utcnow a) = Ret (Some ∅)).
  { unfold decode_jwt. rewrite jwt_unexpiring.
    - reflexivity.
    - split; [intros k _; apply lookup_empty|intros k t _; now rewrite lookup_empty].
    - apply lookup_empty. }
  split; [exact Hdec|].
  unfold require_auth. rewrite (bearer_token _ _ Hauth), jwt_nonempty.
  unfold bind, note. cbn [utcnow]. rewrite Hdec. reflexivity.
Qed.

(** C4 (as amended).  The gate answers 401 and leaves the handler alone
    when the request has no [Authorization] header, when the header does
    not start with the bearer scheme, when the token is empty, and when
    the verifier returns [None]; on these paths the state is the one the
    request came in, with at most the call of the verifier noted.  When
    the verifier returns claims that are not empty, the gate stores them
    in [g.user] and runs the handler in that state. *)
Theorem require_auth_gate (fn : M app response) (a : app) :
  (headers (request a) !! "Authorization" = None ->
   require_auth fn a = (Ret unauthorized, a))
  /\ (forall auth,
        headers (request a) !! "Authorization" = Some auth ->
        PyStr.startswith "bearer " (PyStr.lower auth) = false ->
        require_auth fn a = (Ret unauthorized, a))
  /\ (get_token_from_header (request a) = Some EmptyString ->
      require_auth fn a = (Ret unauthorized, a))
  /\ (forall t,
        get_token_from_header (request a) = Some t ->
        PyStr.truthy t = true ->
        decode_jwt t (utcnow a) = Ret None ->
        require_auth fn a = (Ret unauthorized, snd (note (CallDecode t) a)))
  /\ (forall t claims,
        get_token_from_header (request a) = Some t ->
        PyStr.truthy t = true ->
        decode_jwt t (utcnow a) = Ret (Some claims) ->
        claims <> ∅ ->
        require_auth fn a
        = fn (snd ((do! note (CallDecode t) in
                    do! set_g_user (Some claims) in
                    note CallHandler) a))
        /\ g_user (snd ((do! note (CallDecode t) in
                         do! set_g_user (Some claims) in
                         note CallHandler) a)) = Some claims).
Proof.
  split; [|split; [|split; [|split]]].
  - intros H. apply gate_without_token. left. apply no_bearer_no_token. now left.
  - intros auth H Hs. apply gate_without_token. left. apply no_bearer_no_token.
    right. now exists auth.
  - intros H. apply gate_without_token. now right.
  - intros t Ht Htruthy Hdec. unfold require_auth. rewrite Ht, Htruthy.
    unfold bind, note. cbn [utcnow]. rewrite Hdec. reflexivity.
  - intros t claims Ht Htruthy Hdec Hne. split; [|reflexivity].
    unfold require_auth. rewrite Ht, Htruthy.
    unfold bind at 1, bind at 1, note at 1. cbn [utcnow]. rewrite Hdec.
    unfold dict_falsy. rewrite bool_decide_eq_false_2 by exact Hne.
    reflexivity.
Qed.

(** C10.  A header whose lowered text starts with the bearer scheme, in
    whatever case it is written, gives the rest of the header as token;
    a header written in capitals is accepted; no header, or a header
    without the scheme, gives no token; and with no token or an empty
    one the gate answers 401 in the state the request came in, where no
    call of the verifier is noted. *)
Theorem bearer_scheme_any_case :
  (forall r auth,
      headers r !! "Authorization" = Some auth ->
      PyStr.startswith "bearer " (PyStr.lower auth) = true ->
      get_token_from_header r = Some (PyStr.slice_from 7 auth)
      /\ exists scheme, auth = scheme ++ PyStr.slice_from 7 auth
                        /\ PyStr.lower scheme = "bearer ")
  /\ (forall r x,
        headers r !! "Authorization" = Some ("BEARER " ++ x) ->
        get_token_from_header r = Some x)
  /\ (forall r,
        headers r !! "Authorization" = None
        \/ (exists auth, headers r !! "Authorization" = Some auth
                         /\ PyStr.startswith "bearer " (PyStr.lower auth) = false) ->
        get_token_from_header r = None)
  /\ (forall fn a,
        get_token_from_header (request a) = None
        \/ get_token_from_header (request a) = Some EmptyString ->
        require_auth fn a = (Ret unauthorized, a)
        /\ calls (snd (require_auth fn a)) = calls a).
Proof.
  split; [|split; [|split]].
  - intros r auth H Hs. split.
    + unfold get_token_from_header. rewrite H. cbn [default from_option id]. now rewrite Hs.
    + exact (startswith_lower "bearer " auth Hs).
  - intros r x H. unfold get_token_from_header. rewrite H. reflexivity.
  - exact no_bearer_no_token.
  - intros fn a H. rewrite (gate_without_token fn a H). split; reflexivity.
Qed.

(** *** Registration *)

Lemma select_by_email_new email table row :
  select_by_email email table = [] ->
  user_email row = email ->
  select_by_email email (table ++ [row]) = [row].
Proof.
  intros Hnew Hrow. unfold select_by_email in *.
  rewrite List.filter_app, Hnew. simpl. rewrite Hrow, String.eqb_refl. reflexivity.
Qed.

(** A request with an email and a password, for an email the table does
    not hold, appends one row and answers [ok]. *)
Lemma register_inserts (a : app) (data : gmap string string) (p : string) :
  get_json (request a) = Some data ->
  PyStr.truthy (normalized_email data) = true ->
  data !! "password" = Some p ->
  PyStr.truthy p = true ->
  select_by_email (normalized_email data) (users a) = [] ->
  exists a1,
    register a = (Ret (jsonify {[ "message" := PyStr "ok" ]}), a1)
    /\ users a1
       = (users a ++
          [{| user_id := next_id a;
              user_username :=
                PyStr.strip (str_or (data !! "username")
                                    (email_prefix (normalized_email data)));
              user_email := normalized_email data;
              user_password_hash := generate_password_hash p (salt a) |}])%list
    /\ request a1 = request a.
Proof.
  intros Hjson Hemail Hp Hptruthy Hnew. unfold register.
  rewrite Hjson. cbn [default from_option id]. rewrite Hemail, Hp. cbn [str_or].
  rewrite Hptruthy. cbv iota. rewrite Hptruthy. cbn [negb orb]. rewrite Hnew.
  unfold bind, insert_user. rewrite Hnew. cbn.
  eexists. split; [reflexivity|]. split; reflexivity.
Qed.

(** The same request for an email the table holds answers 409 and
    leaves the state as it was. *)
Lemma register_conflict (a : app) (data : gmap string string) (p : string) row rows :
  get_json (request a) = Some data ->
  PyStr.truthy (normalized_email data) = true ->
  data !! "password" = Some p ->
  PyStr.truthy p = true ->
  select_by_email (normalized_email data) (users a) = row :: rows ->
  register a = (Ret (jsonify_with {[ "error" := PyStr "email already exists" ]} 409), a).
Proof.
  intros Hjson Hemail Hp Hptruthy Hold. unfold register.
  rewrite Hjson. cbn [default from_option id]. rewrite Hemail, Hp. cbn [str_or].
  rewrite Hptruthy. cbv iota. rewrite Hptruthy. cbn [negb orb]. rewrite Hold.
  reflexivity.
Qed.

(** C2.  Two register requests with a password each, whose emails
    normalize to the same non-empty email, on a table that has no row
    for it: the first answers [ok] and appends one row with the
    normalized email; the second, whenever it meets the table the first
    left, answers 409 and changes nothing; that row remains the only one
    with this email. *)
Theorem register_twice (a : app) (first second : gmap string string) (p1 p2 : string) :
  get_json (request a) = Some first ->
  normalized_email first = normalized_email second ->
  PyStr.truthy (normalized_email first) = true ->
  first !! "password" = Some p1 -> PyStr.truthy p1 = true ->
  second !! "password" = Some p2 -> PyStr.truthy p2 = true ->
  select_by_email (normalized_email first) (users a) = [] ->
  exists a1 row,
    register a = (Ret (jsonify {[ "message" := PyStr "ok" ]}), a1)
    /\ users a1 = (users a ++ [row])%list
    /\ user_email row = normalized_email first
    /\ select_by_email (normalized_email first) (users a1) = [row]
    /\ forall a2,
         get_json (request a2) = Some second ->
         users a2 = users a1 ->
         register a2
         = (Ret (jsonify_with {[ "error" := PyStr "email already exists" ]} 409), a2).
Proof.
  intros Hjson Hsame Hemail Hp1 Ht1 Hp2 Ht2 Hnew.
  destruct (register_inserts a first p1 Hjson Hemail Hp1 Ht1 Hnew) as (a1 & Hreg & Husers & _).
  eexists a1, _. split; [exact Hreg|]. split; [exact Husers|]. split; [reflexivity|].
  assert (Hrows : select_by_email (normalized_email first) (users a1) = [
    {| user_id := next_id a;
       user_username := PyStr.strip (str_or (first !! "username")
                                            (email_prefix (normalized_email first)));
       user_email := normalized_email first;
       user_password_hash := generate_password_hash p1 (salt a) |}]).
  { rewrite Husers. now apply select_by_email_new. }
  split; [exact Hrows|].
  intros a2 Hjson2 Husers2.
  eapply (register_conflict a2 second p2); try eassumption.
  - now rewrite <- Hsame.
  - rewrite <- Hsame, Husers2. exact Hrows.
Qed.

Lemma email_prefix_is_split_head email :
  email_prefix email = PyStr.split_head "@" email.
Proof.
  unfold email_prefix. destruct (PyStr.contains_char "@" email) eqn:H; [reflexivity|].
  symmetry. now apply split_head_whole.
Qed.

(** C9 (as amended).  A register request with an email and a password
    and no username, for an email the table does not hold, stores as
    display name the part of the normalized email before the first at
    sign with the white space at its end removed; that is the local part
    itself whenever the local part does not end in white space. *)
Theorem register_default_username (a : app) (data : gmap string string) (p : string) :
  get_json (request a) = Some data ->
  data !! "username" = None ->
  PyStr.truthy (normalized_email data) = true ->
  data !! "password" = Some p ->
  PyStr.truthy p = true ->
  select_by_email (normalized_email data) (users a) = [] ->
  exists a1 row,
    register a = (Ret (jsonify {[ "message" := PyStr "ok" ]}), a1)
    /\ users a1 = (users a ++ [row])%list
    /\ user_email row = normalized_email data
    /\ user_username row = PyStr.rstrip (PyStr.split_head "@" (normalized_email data))
    /\ (PyStr.clean_last (PyStr.split_head "@" (normalized_email data)) ->
        user_username row = PyStr.split_head "@" (normalized_email data)).
Proof.
  intros Hjson Hname Hemail Hp Htruthy Hnew.
  destruct (register_inserts a data p Hjson Hemail Hp Htruthy Hnew) as (a1 & Hreg & Husers & _).
  rewrite Hname in Husers. cbn [str_or] in Husers.
  rewrite email_prefix_is_split_head in Husers.
  rewrite strip_of_clean_head in Husers.
  2:{ apply split_head_clean_head. unfold normalized_email.
      apply lower_clean_head, strip_clean_head. }
  eexists a1, _. split; [exact Hreg|]. split; [exact Husers|].
  split; [reflexivity|]. split; [reflexivity|].
  cbn [user_username]. apply rstrip_of_clean_last.
Qed.

(** *** Registration, then login *)

(** What the proofs take from werkzeug: a hash checks against the
    password it was made from. *)
Hypothesis hash_checks : forall password s,
  check_password_hash (generate_password_hash password s) password = true.

(** After a registration that was accepted, a login with the same email
    (in any casing, with any white space around it) and the same
    password returns a token for the id the row was given and the
    normalized email, and that token is accepted until it expires. *)
Theorem register_then_login (a : app) (data again : gmap string string) (p : string) :
  get_json (request a) = Some data ->
  PyStr.truthy (normalized_email data) = true ->
  data !! "password" = Some p ->
  PyStr.truthy p = true ->
  select_by_email (normalized_email data) (users a) = [] ->
  normalized_email again = normalized_email data ->
  again !! "password" = Some p ->
  exists a1,
    register a = (Ret (jsonify {[ "message" := PyStr "ok" ]}), a1)
    /\ forall a2,
         get_json (request a2) = Some again ->
         users a2 = users a1 ->
         let token := create_jwt (identity (next_id a) (normalized_email data)) (utcnow a2) in
         login a2 = (Ret (jsonify {[ "token" := PyStr token ]}), a2)
         /\ forall now,
              now < utcnow a2 + JWT_EXPIRE_HOURS * 3600 ->
              decode_jwt token now
              = Ret (Some (<["exp" := PyInt (utcnow a2 + JWT_EXPIRE_HOURS * 3600)]>
                             (identity (next_id a) (normalized_email data)))).
Proof.
  intros Hjson Hemail Hp Htruthy Hnew Hsame Hp2.
  destruct (register_inserts a data p Hjson Hemail Hp Htruthy Hnew) as (a1 & Hreg & Husers & _).
  exists a1. split; [exact Hreg|]. intros a2 Hjson2 Husers2 token. split.
  - unfold login. rewrite Hjson2. cbn [default from_option id].
    rewrite Hsame, Hemail, Hp2. cbn [str_or]. rewrite Htruthy. cbv iota.
    rewrite Htruthy. cbn [negb orb]. rewrite Husers2, Husers.
    rewrite (select_by_email_new (normalized_email data) (users a)
               {| user_id := next_id a;
                  user_username :=
                    PyStr.strip (str_or (data !! "username")
                                        (email_prefix (normalized_email data)));
                  user_email := normalized_email data;
                  user_password_hash := generate_password_hash p (salt a) |}
               Hnew eq_refl).
    cbn [user_password_hash user_id]. rewrite hash_checks. reflexivity.
  - intros now Hnow. exact (decode_issued _ _ _ _ Hnow).
Qed.

(** *** Login, the expiry, and what the gate lets through *)

(** [login] reads and never writes.  It answers 200 only when the first
    row with the normalized email has a hash the password checks
    against, and then the token is made for that row's id and the
    normalized email at the time of the request.  An unknown email and
    a wrong password get the same answer. *)
Theorem login_sound (a : app) :
  let data := default ∅ (get_json (request a)) in
  let email := normalized_email data in
  let password := str_or (data !! "password") "" in
  snd (login a) = a
  /\ (exists resp,
        fst (login a) = Ret resp
        /\ (status resp = 200 ->
            exists r rest,
              select_by_email email (users a) = r :: rest
              /\ check_password_hash (user_password_hash r) password = true
              /\ resp = jsonify {[ "token" :=
                          PyStr (create_jwt (identity (user_id r) email) (utcnow a)) ]}))
  /\ (PyStr.truthy email = true -> PyStr.truthy password = true ->
      select_by_email email (users a) = []
      \/ (exists r rest, select_by_email email (users a) = r :: rest
                         /\ check_password_hash (user_password_hash r) password = false) ->
      login a = (Ret (jsonify_with {[ "error" := PyStr "invalid credentials" ]} 401), a)).
Proof.
  intros data email password. unfold login. fold data. fold email. fold password.
  split; [|split].
  - destruct (negb _ || negb _); [reflexivity|].
    destruct (select_by_email email (users a)) as [|r rest]; [reflexivity|].
    destruct (check_password_hash _ _); reflexivity.
  - destruct (negb _ || negb _).
    { eexists. split; [reflexivity|]. cbn [status jsonify_with]. discriminate. }
    destruct (select_by_email email (users a)) as [|r rest].
    { eexists. split; [reflexivity|]. cbn [status jsonify_with]. discriminate. }
    destruct (check_password_hash (user_password_hash r) password) eqn:Hc; cbn [negb].
    + eexists. split; [reflexivity|]. intros _. exists r, rest. auto.
    + eexists. split; [reflexivity|]. cbn [status jsonify_with]. discriminate.
  - intros He Hp Hbad. rewrite He, Hp. cbn [negb orb].
    destruct Hbad as [->|(r & rest & -> & Hc)]; [reflexivity|].
    now rewrite Hc.
Qed.

(** The caller of [create_jwt] does not choose the expiry: an [exp] in
    the payload is replaced by the time of issue plus 24 hours, and that
    is the expiry the verifier reads back. *)
Theorem create_jwt_sets_expiry (payload : gmap string pyval) (v : pyval) (issued : Z) :
  create_jwt (<["exp" := v]> payload) issued = create_jwt payload issued
  /\ (plain_payload (<["exp" := PyDatetime (issued + JWT_EXPIRE_HOURS * 3600)]> payload) ->
      forall now, now < issued + JWT_EXPIRE_HOURS * 3600 ->
        exists claims,
          decode_jwt (create_jwt (<["exp" := v]> payload) issued) now = Ret (Some claims)
          /\ claims !! "exp" = Some (PyInt (issued + JWT_EXPIRE_HOURS * 3600))).
Proof.
  assert (Hsame : create_jwt (<["exp" := v]> payload) issued = create_jwt payload issued).
  { unfold create_jwt. now rewrite insert_insert_eq. }
  split; [exact Hsame|]. intros Hplain now Hnow. rewrite Hsame.
  unfold decode_jwt, create_jwt.
  rewrite (jwt_fresh _ (issued + JWT_EXPIRE_HOURS * 3600) now Hplain).
  - eexists. split; [reflexivity|]. unfold numeric_dates.
    rewrite lookup_alter_eq, !lookup_alter_ne by discriminate.
    now rewrite lookup_insert_eq.
  - unfold expiry. now rewrite lookup_insert_eq.
  - exact Hnow.
Qed.

(** A token that [login] issued is refused from its 24th hour on: the
    gate asks the verifier once, answers 401, and the handler is not
    entered. *)
Theorem expired_token_refused (uid : Z) (email : string) (issued : Z)
    (fn : M app response) (a : app) :
  issued + JWT_EXPIRE_HOURS * 3600 <= utcnow a ->
  headers (request a) !! "Authorization"
  = Some ("Bearer " ++ create_jwt (identity uid email) issued) ->
  fst (require_auth fn a) = Ret unauthorized
  /\ calls (snd (require_auth fn a))
     = (calls a ++ [CallDecode (create_jwt (identity uid email) issued)])%list
  /\ g_user (snd (require_auth fn a)) = g_user a.
Proof.
  intros Hlate Hauth.
  assert (Hdec : decode_jwt (create_jwt (identity uid email) issued) (utcnow a) = Ret None).
  { unfold decode_jwt, create_jwt.
    destruct (jwt_expired (<["exp" := PyDatetime (issued + JWT_EXPIRE_HOURS * 3600)]>
                             (identity uid email))
                (issued + JWT_EXPIRE_HOURS * 3600) (utcnow a)) as (x & -> & Hx).
    - apply identity_plain.
    - unfold expiry. now rewrite lookup_insert_eq.
    - exact Hlate.
    - unfold caught_by. rewrite Hx. reflexivity. }
  unfold require_auth. rewrite (bearer_token _ _ Hauth).
  assert (Htruthy : PyStr.truthy (create_jwt (identity uid email) issued) = true)
    by apply jwt_nonempty.
  rewrite Htruthy. unfold bind, note. cbn [utcnow]. rewrite Hdec.
  cbn [dict_falsy ret fst snd calls g_user]. auto.
Qed.

Lemma numeric_dates_lookup_other d k :
  k <> "exp" -> k <> "iat" -> k <> "nbf" -> numeric_dates d !! k = d !! k.
Proof.
  intros He Hi Hn. unfold numeric_dates. now rewrite !lookup_alter_ne by congruence.
Qed.

(** The gate checks the signature and the expiry, not what the claims
    hold: with a token signed with the server's key whose payload has no
    [uid], the gate lets the request through and [/api/me] raises
    [KeyError] instead of answering. *)
Theorem me_needs_uid_claim (d : gmap string pyval) (e : Z) (a : app) :
  plain_payload d -> expiry d = Some e -> utcnow a < e ->
  d !! "uid" = None ->
  headers (request a) !! "Authorization" = Some ("Bearer " ++ jwt_encode d JWT_SECRET JWT_ALG) ->
  fst (require_auth me a) = Raise (mk_exc KeyError "uid")
  /\ g_user (snd (require_auth me a)) = Some (numeric_dates d).
Proof.
  intros Hplain Hexp Hnow Huid Hauth.
  enough (exists a', require_auth me a = (Raise (mk_exc KeyError "uid"), a')
                     /\ g_user a' = Some (numeric_dates d)) as (a' & -> & Hg).
  { split; [reflexivity|exact Hg]. }
  eexists. unfold require_auth.
  rewrite (bearer_token _ _ Hauth), jwt_nonempty.
  unfold bind at 1, bind at 1, note at 1. cbn [utcnow].
  unfold decode_jwt. rewrite (jwt_fresh d e (utcnow a) Hplain Hexp Hnow).
  unfold dict_falsy. rewrite bool_decide_eq_false_2.
  2:{ intros H. apply (f_equal (fun m => m !! "exp")) in H.
      unfold numeric_dates in H. rewrite lookup_alter_eq, !lookup_alter_ne in H by discriminate.
      rewrite lookup_empty in H. unfold expiry in Hexp.
      destruct (d !! "exp") as [[]|]; discriminate. }
  unfold bind, set_g_user, note, me. cbn [g_user].
  rewrite numeric_dates_lookup_other by discriminate. rewrite Huid.
  split; reflexivity.
Qed.

(** *** More of [register] *)

(** The display name of a register request that gives a username: the
    name with the white space around it removed (nothing is left of a
    name of white space only); an empty name counts as not given, and
    the default is stored. *)
Theorem register_username (a : app) (data : gmap string string) (p u : string) :
  get_json (request a) = Some data ->
  data !! "username" = Some u ->
  PyStr.truthy (normalized_email data) = true ->
  data !! "password" = Some p ->
  PyStr.truthy p = true ->
  select_by_email (normalized_email data) (users a) = [] ->
  exists a1 row,
    register a = (Ret (jsonify {[ "message" := PyStr "ok" ]}), a1)
    /\ users a1 = (users a ++ [row])%list
    /\ user_username row
       = (if PyStr.truthy u then PyStr.strip u
          else PyStr.rstrip (PyStr.split_head "@" (normalized_email data))).
Proof.
  intros Hjson Hname Hemail Hp Htruthy Hnew.
  destruct (register_inserts a data p Hjson Hemail Hp Htruthy Hnew) as (a1 & Hreg & Husers & _).
  rewrite Hname in Husers. cbn [str_or] in Husers.
  eexists a1, _. split; [exact Hreg|]. split; [exact Husers|].
  cbn [user_username]. destruct (PyStr.truthy u); [reflexivity|].
  rewrite email_prefix_is_split_head. apply strip_of_clean_head.
  apply split_head_clean_head. unfold normalized_email.
  apply lower_clean_head, strip_clean_head.
Qed.

(** The email [register] stores and [login] looks up is in normal form:
    normalizing it again changes nothing, so a request that sends the
    email as it was stored is looked up under that very email. *)
Theorem normalized_email_is_normal (data again : gmap string string) :
  PyStr.lower (PyStr.strip (normalized_email data)) = normalized_email data
  /\ (again !! "email" = Some (normalized_email data) ->
      normalized_email again = normalized_email data).
Proof.
  assert (Hnormal : PyStr.lower (PyStr.strip (normalized_email data))
                    = normalized_email data).
  { unfold normalized_email. now rewrite strip_lower, strip_idem, lower_idem. }
  split; [exact Hnormal|]. intros Hagain.
  unfold normalized_email at 1. rewrite Hagain. cbn [str_or].
  destruct (PyStr.truthy (normalized_email data)) eqn:Ht; [exact Hnormal|].
  destruct (normalized_email data); [reflexivity|discriminate].
Qed.

End App.

(** ** Reference collaborators

    A token format, a database driver and a password hasher that meet
    what the proofs above take from PyJWT, PyMySQL and werkzeug.  They
    are not the libraries; they show the hypotheses of the theorems can
    be met, and give the counterexamples something to run on. *)

Module RefJWT.

Definition pyval_to_sum (v : pyval) : unit + Z + string + Z :=
  match v with
  | PyNone => inl (inl (inl tt))
  | PyInt z => inl (inl (inr z))
  | PyStr s => inl (inr s)
  | PyDatetime t => inr t
  end.

Definition pyval_of_sum (x : unit + Z + string + Z) : pyval :=
  match x with
  | inl (inl (inl _)) => PyNone
  | inl (inl (inr z)) => PyInt z
  | inl (inr s) => PyStr s
  | inr t => PyDatetime t
  end.

Lemma pyval_of_to_sum v : pyval_of_sum (pyval_to_sum v) = v.
Proof. destruct v; reflexivity. Qed.

Global Instance pyval_countable : Countable pyval :=
  inj_countable' pyval_to_sum pyval_of_sum pyval_of_to_sum.

(** A number written with the letters I, O and H, and read back. *)
Fixpoint write_positive (p : positive) : string :=
  match p with
  | xH => "H"
  | xO q => String "O" (write_positive q)
  | xI q => String "I" (write_positive q)
  end.

Fixpoint read_positive (s : string) : option positive :=
  match s with
  | EmptyString => None
  | String c s' =>
      if Ascii.eqb c "H" then match s' with EmptyString => Some xH | _ => None end
      else if Ascii.eqb c "O" then xO <$> read_positive s'
      else if Ascii.eqb c "I" then xI <$> read_positive s'
      else None
  end.

(** The token carries the key it was made with, the algorithm and the
    payload with its dates as timestamps. *)
Definition jwt_encode (payload : gmap string pyval) (key algorithm : string) : string :=
  write_positive (encode (key, algorithm, numeric_dates payload)).

Definition jwt_decode (token key : string) (algorithms : list string) (now : Z)
    : result (gmap string pyval) :=
  match read_positive token ≫= decode (A := string * string * gmap string pyval) with
  | None => Raise (mk_exc DecodeError "Not enough segments")
  | Some (k, algorithm, payload) =>
      if negb (existsb (String.eqb algorithm) algorithms)
      then Raise (mk_exc InvalidAlgorithmError "The specified alg value is not allowed")
      else if negb (String.eqb k key)
      then Raise (mk_exc InvalidSignatureError "Signature verification failed")
      else match payload !! "exp" with
           | None => Ret payload
           | Some (PyInt e) =>
               if e <=? now then Raise (mk_exc ExpiredSignatureError "Signature has expired")
               else Ret payload
           | Some _ =>
               Raise (mk_exc DecodeError "Expiration Time claim (exp) must be an integer.")
           end
  end.

Lemma read_write_positive p : read_positive (write_positive p) = Some p.
Proof. induction p as [p IH|p IH|]; simpl; [now rewrite IH..|reflexivity]. Qed.

Lemma decode_encoded d key alg now :
  jwt_decode (jwt_encode d key alg) key [alg] now
  = match numeric_dates d !! "exp" with
    | None => Ret (numeric_dates d)
    | Some (PyInt e) =>
        if e <=? now then Raise (mk_exc ExpiredSignatureError "Signature has expired")
        else Ret (numeric_dates d)
    | Some _ =>
        Raise (mk_exc DecodeError "Expiration Time claim (exp) must be an integer.")
    end.
Proof.
  unfold jwt_decode, jwt_encode. rewrite read_write_positive. cbn [mbind option_bind].
  rewrite decode_encode. cbn [existsb]. rewrite !String.eqb_refl. reflexivity.
Qed.

Lemma numeric_exp d e : expiry d = Some e -> numeric_dates d !! "exp" = Some (PyInt e).
Proof.
  unfold expiry, numeric_dates. intros H.
  rewrite lookup_alter_eq, !lookup_alter_ne by discriminate.
  destruct (d !! "exp") as [[]|]; inversion H; reflexivity.
Qed.

Lemma fresh d key alg e now :
  plain_payload d -> expiry d = Some e -> now < e ->
  jwt_decode (jwt_encode d key alg) key [alg] now = Ret (numeric_dates d).
Proof.
  intros _ He Hnow. rewrite decode_encoded, (numeric_exp d e He).
  destruct (e <=? now) eqn:E; [apply Z.leb_le in E; lia|reflexivity].
Qed.

Lemma unexpiring d key alg now :
  plain_payload d -> d !! "exp" = None ->
  jwt_decode (jwt_encode d key alg) key [alg] now = Ret (numeric_dates d).
Proof.
  intros _ He. rewrite decode_encoded. unfold numeric_dates.
  rewrite lookup_alter_eq, !lookup_alter_ne, He by discriminate. reflexivity.
Qed.

Lemma expired d key alg e now :
  plain_payload d -> expiry d = Some e -> e <= now ->
  exists x, jwt_decode (jwt_encode d key alg) key [alg] now = Raise x
            /\ exc_class x = ExpiredSignatureError.
Proof.
  intros _ He Hnow. rewrite decode_encoded, (numeric_exp d e He).
  apply Z.leb_le in Hnow. rewrite Hnow. eexists. split; reflexivity.
Qed.



Lemma nonempty d key alg : PyStr.truthy (jwt_encode d key alg) = true.
Proof. unfold jwt_encode. destruct (encode _); reflexivity. Qed.

End RefJWT.

Module RefDriver.

(** A server that keeps the names of its tables, the row the last
    catalog query found, and whether its next commit is to fail. *)
Record ref_store : Type := {
  tables : list string;
  found : option string;
  commit_fails : bool
}.

(** [CREATE TABLE name] creates the table [name]. *)
Definition created_table (sql : string) : option string :=
  if PyStr.startswith "CREATE TABLE " sql then Some (PyStr.slice_from 13 sql) else None.

Definition execute (c : cursor) (sql : string) (params : list pyval) (s : ref_store)
    : result Z * ref_store :=
  if String.eqb sql TABLE_EXISTS_SQL then
    match params with
    | [_; PyStr name] =>
        if existsb (String.eqb name) (tables s)
        then (Ret 1, {| tables := tables s; found := Some name; commit_fails := commit_fails s |})
        else (Ret 0, {| tables := tables s; found := None; commit_fails := commit_fails s |})
    | _ => (Raise (mk_exc ProgrammingError "not all arguments converted"), s)
    end
  else
    match created_table sql with
    | Some name =>
        (Ret 0, {| tables := name :: tables s; found := None; commit_fails := commit_fails s |})
    | None => (Ret 1, {| tables := tables s; found := None; commit_fails := commit_fails s |})
    end.

Definition pymysql : driver ref_store string := {|
  pymysql_connect := fun s => (Ret tt, s);
  conn_open := fun _ => true;
  conn_cursor := fun s => (Ret 0%nat, s);
  conn_commit := fun s =>
    if commit_fails s then (Raise (mk_exc OperationalError "Lost connection"), s)
    else (Ret tt, s);
  conn_rollback := fun s => (Ret tt, s);
  cursor_execute := execute;
  cursor_executemany := fun _ _ param_list s => (Ret (Z.of_nat (length param_list)), s);
  cursor_fetchall := fun _ s => (Ret (option_list (found s)), s);
  cursor_fetchone := fun _ s => (Ret (found s), s);
  cursor_close := fun _ s => (Ret tt, s)
|}.

(** A helper that has not connected yet, on a server with no table. *)
Definition fresh (fails : bool) : helper ref_store :=
  {| connection := false;
     server := {| tables := []; found := None; commit_fails := fails |};
     log := [] |}.

(** The body of the [with] block of [execute_non_query]. *)
Definition insert_body (c : cursor) : M (helper ref_store) Z :=
  driver_call ref_store (EvExecute c "INSERT INTO t VALUES (1)" [])
    (cursor_execute ref_store string pymysql c "INSERT INTO t VALUES (1)" []).

(** A body interrupted from the keyboard. *)
Definition interrupted_body (c : cursor) : M (helper ref_store) Z :=
  raise (mk_exc KeyboardInterrupt "").

End RefDriver.

(** [close()] of the reference connection, and a helper that is
    connected to the reference server. *)
Definition ref_conn_close (s : RefDriver.ref_store) : result unit * RefDriver.ref_store :=
  (Ret tt, s).

Definition connected : helper RefDriver.ref_store :=
  {| connection := true; server := server _ (RefDriver.fresh false); log := [] |}.

(** The reference driver with faults switched on: a server that cannot
    be reached, a connection that gives no cursor, a rollback or a
    cursor close that fails. *)
Module FaultyDriver.

Record faults : Type := {
  no_connect : bool;
  no_cursor : bool;
  no_rollback : bool;
  no_close : bool
}.

Definition gone_away : pyexc := mk_exc OperationalError "MySQL server has gone away".

Definition pymysql (f : faults) : driver RefDriver.ref_store string := {|
  pymysql_connect := fun s =>
    if no_connect f then (Raise (mk_exc OperationalError "Can't connect to MySQL server"), s)
    else (Ret tt, s);
  conn_open := fun _ => true;
  conn_cursor := fun s => if no_cursor f then (Raise gone_away, s) else (Ret 0%nat, s);
  conn_commit := fun s => (Ret tt, s);
  conn_rollback := fun s => if no_rollback f then (Raise gone_away, s) else (Ret tt, s);
  cursor_execute := RefDriver.execute;
  cursor_executemany := fun _ _ param_list s => (Ret (Z.of_nat (length param_list)), s);
  cursor_fetchall := fun _ s => (Ret (option_list (RefDriver.found s)), s);
  cursor_fetchone := fun _ s => (Ret (RefDriver.found s), s);
  cursor_close := fun _ s => if no_close f then (Raise gone_away, s) else (Ret tt, s)
|}.

End FaultyDriver.

(** A hasher that writes the salt after the password, and its checker. *)
Definition ref_hash (password salt : string) : string := password ++ "$" ++ salt.

Definition ref_check (pwhash password : string) : bool :=
  PyStr.startswith (password ++ "$") pwhash.

Lemma ref_hash_checks password s : ref_check (ref_hash password s) password = true.
Proof.
  unfold ref_check, ref_hash. induction password as [|c password IH]; simpl.
  - reflexivity.
  - now rewrite Ascii.eqb_refl, IH.
Qed.

Definition DEV_SECRET : string := "dev-secret-change-me".

(** A request that carries [token] as bearer, met at time [now]. *)
Definition bearing (token : string) (now : Z) : app :=
  {| request := {| headers := {[ "Authorization" := "Bearer " ++ token ]};
                   get_json := None |};
     utcnow := now; g_user := None; users := []; next_id := 1;
     salt := "salt"; calls := [] |}.

(** A handler that would answer 200. *)
Definition hello : M app response := ret (jsonify {[ "message" := PyStr "hello" ]}).

(** A register request on an empty table. *)
Definition registering (data : gmap string string) : app :=
  {| request := {| headers := ∅; get_json := Some data |};
     utcnow := 0; g_user := None; users := []; next_id := 1;
     salt := "salt"; calls := [] |}.

(** ** The theorems at work, and where the specification overshoots *)

Example strip_ex : PyStr.strip "  A@B.com " = "A@B.com".
Proof. reflexivity. Qed.

Example lower_ex : PyStr.lower "BEARER x" = "bearer x".
Proof. reflexivity. Qed.

Example splitlines_ex :
  PyStr.splitlines
    ("a" ++ String (ascii_of_nat 13) (String (ascii_of_nat 10)
       ("b" ++ String (ascii_of_nat 10) (String (ascii_of_nat 10)
          ("c;" ++ String (ascii_of_nat 10) EmptyString)))))
  = ["a"; "b"; ""; "c;"].
Proof. reflexivity. Qed.

Example script_statements_ex :
  script_statements
    ("-- schema" ++ NL ++ "CREATE TABLE t (" ++ NL ++ "  id INT" ++ NL ++ ");" ++ NL
     ++ NL ++ "# data" ++ NL ++ "INSERT INTO t VALUES (1);  " ++ NL ++ "SELECT 1")
  = [ "CREATE TABLE t (" ++ NL ++ "  id INT" ++ NL ++ ");";
      "INSERT INTO t VALUES (1);  ";
      "SELECT 1" ].
Proof. reflexivity. Qed.

(** C5, on the reference driver: a body that inserts a row. *)
Lemma get_cursor_scope_witness :
  (exists evs,
      log _ (snd (_get_cursor _ _ RefDriver.pymysql RefDriver.insert_body (RefDriver.fresh false)))
      = (log _ (snd (RefDriver.insert_body 0%nat
                       {| connection := true; server := server _ (RefDriver.fresh false);
                          log := [EvConnect; EvCursor] |})) ++ evs)%list
      /\ list.last evs = Some (EvCursorClose 0%nat))
  /\ fst (_get_cursor _ _ RefDriver.pymysql RefDriver.insert_body (RefDriver.fresh false)) = Ret 1.
Proof.
  destruct (get_cursor_scope _ _ RefDriver.pymysql RefDriver.insert_body
              (RefDriver.fresh false)
              {| connection := true; server := server _ (RefDriver.fresh false);
                 log := [EvConnect] |}
              0%nat
              {| connection := true; server := server _ (RefDriver.fresh false);
                 log := [EvConnect; EvCursor] |}
              eq_refl eq_refl) as (Hclose & Hcommit & _).
  split; [exact Hclose|].
  destruct (Hcommit 1 _ eq_refl) as (_ & Hcommitted & _).
  exact (proj2 (proj2 (Hcommitted _ eq_refl))).
Defined.

(** The rollback path on the reference driver: a body that raises an
    [OperationalError] is rolled back, and the error is raised again. *)
Example get_cursor_rolls_back_ex :
  log _ (snd (_get_cursor _ _ RefDriver.pymysql
                (fun _ => raise (mk_exc OperationalError "Deadlock found") : M _ Z)
                (RefDriver.fresh false)))
  = [EvConnect; EvCursor; EvRollback; EvCursorClose 0%nat]
  /\ fst (_get_cursor _ _ RefDriver.pymysql
            (fun _ => raise (mk_exc OperationalError "Deadlock found") : M _ Z)
            (RefDriver.fresh false))
     = Raise (mk_exc OperationalError "Deadlock found").
Proof. split; reflexivity. Qed.

(** C5 as stated fails.  When the commit raises after a body that
    returned, the scope both commits and rolls back, and raises; when
    the body raises [KeyboardInterrupt], which [except Exception] does
    not catch, the scope neither commits nor rolls back. *)
Lemma get_cursor_two_decisions_or_none :
  (fst (RefDriver.insert_body 0%nat
          {| connection := true; server := server _ (RefDriver.fresh true);
             log := [EvConnect; EvCursor] |}) = Ret 1
   /\ log _ (snd (_get_cursor _ _ RefDriver.pymysql RefDriver.insert_body (RefDriver.fresh true)))
      = [EvConnect; EvCursor; EvExecute 0%nat "INSERT INTO t VALUES (1)" [];
         EvCommit; EvRollback; EvCursorClose 0%nat]
   /\ fst (_get_cursor _ _ RefDriver.pymysql RefDriver.insert_body (RefDriver.fresh true))
      = Raise (mk_exc OperationalError "Lost connection"))
  /\ (log _ (snd (_get_cursor _ _ RefDriver.pymysql RefDriver.interrupted_body
                    (RefDriver.fresh false)))
      = [EvConnect; EvCursor; EvCursorClose 0%nat]
      /\ fst (_get_cursor _ _ RefDriver.pymysql RefDriver.interrupted_body (RefDriver.fresh false))
         = Raise (mk_exc KeyboardInterrupt "")).
Proof. repeat split; reflexivity. Qed.

(** C7, on the reference driver: creating the table [users] twice. *)
Lemma ensure_table_at_most_once_witness :
  PyStr.truthy "users" = true
  /\ (exists done,
        statements_run
          (log _ (snd ((do! ensure_table _ _ RefDriver.pymysql "CREATE TABLE users" (Some "users") None in
                        ensure_table _ _ RefDriver.pymysql "CREATE TABLE users" (Some "users") None)
                         (RefDriver.fresh false))))
        = (statements_run (log _ (RefDriver.fresh false)) ++ done)%list
        /\ (done = [] \/ done = ["CREATE TABLE users"])).
Proof.
  split; [reflexivity|].
  refine (proj1 (ensure_table_at_most_once _ _ RefDriver.pymysql
                   "CREATE TABLE users" "users" None (RefDriver.fresh false) eq_refl _)).
  intros h1 Hfirst _. vm_compute in Hfirst. inversion Hfirst; subst h1. reflexivity.
Defined.

(** C1, on the reference token format: a token issued at time 0 and
    presented one second before its expiry. *)
Lemma token_round_trip_witness :
  86399 < 0 + JWT_EXPIRE_HOURS * 3600
  /\ (exists claims,
        decode_jwt RefJWT.jwt_decode DEV_SECRET
          (create_jwt RefJWT.jwt_encode DEV_SECRET (identity 7 "a@b.com") 0) 86399
        = Ret (Some claims)
        /\ claims !! "uid" = Some (PyInt 7)
        /\ claims !! "email" = Some (PyStr "a@b.com")
        /\ dom claims = {[ "uid"; "email"; "exp" ]})
  /\ fst (require_auth RefJWT.jwt_decode DEV_SECRET me
            (bearing (create_jwt RefJWT.jwt_encode DEV_SECRET (identity 7 "a@b.com") 0) 86399))
     = Ret (jsonify (<["uid" := PyInt 7]> {[ "email" := PyStr "a@b.com" ]})).
Proof.
  split; [reflexivity|].
  destruct (token_round_trip RefJWT.jwt_encode RefJWT.jwt_decode DEV_SECRET
              (fun d e now => RefJWT.fresh d DEV_SECRET JWT_ALG e now)
              (fun d => RefJWT.nonempty d DEV_SECRET JWT_ALG)
              7 "a@b.com" 0 86399
              (bearing (create_jwt RefJWT.jwt_encode DEV_SECRET (identity 7 "a@b.com") 0) 86399)
              eq_refl) as [Hclaims Hme].
  split; [exact Hclaims|].
  apply Hme; [reflexivity|]. apply lookup_singleton_eq.
Defined.


(** C4 as stated fails.  A token signed with the server's key whose
    claims are the empty mapping is verified, and [decode_jwt] returns
    its claims; the gate still answers 401 and does not run the handler,
    since [not data] holds of an empty dict. *)
Lemma gate_refuses_verified_empty_claims :
  decode_jwt RefJWT.jwt_decode DEV_SECRET (RefJWT.jwt_encode ∅ DEV_SECRET JWT_ALG) 0
  = Ret (Some ∅)
  /\ fst (require_auth RefJWT.jwt_decode DEV_SECRET hello
            (bearing (RefJWT.jwt_encode ∅ DEV_SECRET JWT_ALG) 0))
     = Ret unauthorized
  /\ calls (snd (require_auth RefJWT.jwt_decode DEV_SECRET hello
                   (bearing (RefJWT.jwt_encode ∅ DEV_SECRET JWT_ALG) 0)))
     = [CallDecode (RefJWT.jwt_encode ∅ DEV_SECRET JWT_ALG)]
  /\ g_user (snd (require_auth RefJWT.jwt_decode DEV_SECRET hello
                    (bearing (RefJWT.jwt_encode ∅ DEV_SECRET JWT_ALG) 0)))
     = None.
Proof.
  destruct (gate_refuses_empty_claims RefJWT.jwt_encode RefJWT.jwt_decode DEV_SECRET
              (fun d now => RefJWT.unexpiring d DEV_SECRET JWT_ALG now)
              (fun d => RefJWT.nonempty d DEV_SECRET JWT_ALG)
              hello (bearing (RefJWT.jwt_encode ∅ DEV_SECRET JWT_ALG) 0)
              (lookup_singleton_eq _ _)) as [Hdec Hgate].
  split; [exact Hdec|]. rewrite Hgate. repeat split; reflexivity.
Qed.

(** C2, on the specification's example: [" A@B.com "], then ["a@b.com"]. *)
Lemma register_twice_witness :
  normalized_email (<["email" := " A@B.com "]> {[ "password" := "first" ]})
  = normalized_email (<["email" := "a@b.com"]> {[ "password" := "second" ]})
  /\ exists a1 row,
       register ref_hash
         (registering (<["email" := " A@B.com "]> {[ "password" := "first" ]}))
       = (Ret (jsonify {[ "message" := PyStr "ok" ]}), a1)
       /\ users a1 = [row]
       /\ user_email row = "a@b.com"
       /\ register ref_hash
            (with_request {| headers := ∅;
                             get_json := Some (<["email" := "a@b.com"]>
                                                 {[ "password" := "second" ]}) |} a1)
          = (Ret (jsonify_with {[ "error" := PyStr "email already exists" ]} 409),
             with_request {| headers := ∅;
                             get_json := Some (<["email" := "a@b.com"]>
                                                 {[ "password" := "second" ]}) |} a1).
Proof.
  split; [vm_compute; reflexivity|].
  destruct (register_twice ref_hash
              (registering (<["email" := " A@B.com "]> {[ "password" := "first" ]}))
              (<["email" := " A@B.com "]> {[ "password" := "first" ]})
              (<["email" := "a@b.com"]> {[ "password" := "second" ]})
              "first" "second"
              ltac:(vm_compute; reflexivity) ltac:(vm_compute; reflexivity)
              ltac:(vm_compute; reflexivity) ltac:(vm_compute; reflexivity)
              ltac:(vm_compute; reflexivity) ltac:(vm_compute; reflexivity)
              ltac:(vm_compute; reflexivity) ltac:(vm_compute; reflexivity))
    as (a1 & row & Hfirst & Husers & Hrow & _ & Hsecond).
  exists a1, row. split; [exact Hfirst|]. split; [exact Husers|]. split; [exact Hrow|].
  apply Hsecond; reflexivity.
Defined.

(** C9, for an ordinary address. *)
Lemma register_default_username_witness :
  exists a1 row,
    register ref_hash
      (registering (<["email" := "Ada@Example.org"]> {[ "password" := "pw" ]}))
    = (Ret (jsonify {[ "message" := PyStr "ok" ]}), a1)
    /\ users a1 = [row]
    /\ user_username row = "ada".
Proof.
  destruct (register_default_username ref_hash
              (registering (<["email" := "Ada@Example.org"]> {[ "password" := "pw" ]}))
              (<["email" := "Ada@Example.org"]> {[ "password" := "pw" ]}) "pw"
              ltac:(vm_compute; reflexivity) ltac:(vm_compute; reflexivity)
              ltac:(vm_compute; reflexivity) ltac:(vm_compute; reflexivity)
              ltac:(vm_compute; reflexivity) ltac:(vm_compute; reflexivity))
    as (a1 & row & Hreg & Husers & _ & Hname & _).
  exists a1, row. split; [exact Hreg|]. split; [exact Husers|]. exact Hname.
Defined.

(** C9 as stated fails.  For the email ["a @b.com"] the part before the
    at sign is ["a "], with a space at its end, and the name stored is
    ["a"]: the [.strip()] that closes the expression for [username]
    applies to the default as it does to a name given. *)
Lemma register_trims_local_part :
  PyStr.split_head "@"
    (normalized_email (<["email" := "a @b.com"]> {[ "password" := "pw" ]})) = "a "
  /\ users (snd (register ref_hash
                   (registering (<["email" := "a @b.com"]> {[ "password" := "pw" ]}))))
     = [{| user_id := 1; user_username := "a"; user_email := "a @b.com";
           user_password_hash := "pw$salt" |}].
Proof. split; reflexivity. Qed.

(** Register, then log in with the address in capitals. *)
Lemma register_then_login_witness :
  exists a1,
    register ref_hash (registering (<["email" := "a@b.com"]> {[ "password" := "pw" ]}))
    = (Ret (jsonify {[ "message" := PyStr "ok" ]}), a1)
    /\ login RefJWT.jwt_encode ref_check DEV_SECRET
         (with_request {| headers := ∅;
                          get_json := Some (<["email" := " A@B.COM"]> {[ "password" := "pw" ]}) |}
                       a1)
       = (Ret (jsonify {[ "token" :=
                            PyStr (create_jwt RefJWT.jwt_encode DEV_SECRET
                                     (identity 1 "a@b.com") (utcnow a1)) ]}),
          with_request {| headers := ∅;
                          get_json := Some (<["email" := " A@B.COM"]> {[ "password" := "pw" ]}) |}
                       a1).
Proof.
  destruct (register_then_login RefJWT.jwt_encode RefJWT.jwt_decode ref_hash ref_check
              DEV_SECRET
              (fun d e now => RefJWT.fresh d DEV_SECRET JWT_ALG e now)
              ref_hash_checks
              (registering (<["email" := "a@b.com"]> {[ "password" := "pw" ]}))
              (<["email" := "a@b.com"]> {[ "password" := "pw" ]})
              (<["email" := " A@B.COM"]> {[ "password" := "pw" ]})
              "pw"
              ltac:(vm_compute; reflexivity) ltac:(vm_compute; reflexivity)
              ltac:(vm_compute; reflexivity) ltac:(vm_compute; reflexivity)
              ltac:(vm_compute; reflexivity) ltac:(vm_compute; reflexivity)
              ltac:(vm_compute; reflexivity))
    as (a1 & Hreg & Hlogin).
  exists a1. split; [exact Hreg|].
  exact (proj1 (Hlogin (with_request
                         {| headers := ∅;
                            get_json := Some (<["email" := " A@B.COM"]>
                                                {[ "password" := "pw" ]}) |} a1)
                  eq_refl eq_refl)).
Defined.

(** A statement that goes through, on a helper that has not connected. *)
Lemma execute_non_query_commits_witness :
  exists c,
    log _ (snd (execute_non_query _ _ RefDriver.pymysql "CREATE TABLE users" None
                  (RefDriver.fresh false)))
    = [EvNonQuery "CREATE TABLE users" []; EvConnect; EvCursor;
       EvExecute c "CREATE TABLE users" []; EvCommit; EvCursorClose c].
Proof.
  destruct (execute_non_query_commits _ _ RefDriver.pymysql "CREATE TABLE users" None
              (RefDriver.fresh false) 0 _ eq_refl) as (c & Hlog & _).
  exists c. exact Hlog.
Defined.

(** The catalog query sent without its parameters: the driver refuses
    it, and the scope rolls back. *)
Lemma execute_non_query_rolls_back_witness :
  execute_non_query _ _ RefDriver.pymysql TABLE_EXISTS_SQL None connected
  = (Raise (mk_exc ProgrammingError "not all arguments converted"),
     {| connection := true; server := server _ connected;
        log := [EvNonQuery TABLE_EXISTS_SQL []; EvCursor;
                EvExecute 0%nat TABLE_EXISTS_SQL []; EvRollback; EvCursorClose 0%nat] |}).
Proof.
  exact (execute_non_query_rolls_back _ _ RefDriver.pymysql TABLE_EXISTS_SQL None connected
           0%nat _ _ _ _ _ eq_refl eq_refl eq_refl eq_refl eq_refl eq_refl eq_refl).
Defined.

(** A query on the reference server. *)
Lemma execute_query_returns_witness :
  exists c,
    log _ (snd (execute_query _ _ RefDriver.pymysql "SELECT 1" None (RefDriver.fresh false)))
    = [EvConnect; EvCursor; EvExecute c "SELECT 1" []; EvFetchAll c;
       EvCommit; EvCursorClose c].
Proof.
  destruct (execute_query_returns _ _ RefDriver.pymysql "SELECT 1" None
              (RefDriver.fresh false) [] _ eq_refl) as (c & Hlog & _).
  exists c. exact Hlog.
Defined.

(** Two rows in one [executemany]. *)
Lemma execute_many_returns_witness :
  exists c,
    log _ (snd (execute_many _ _ RefDriver.pymysql "INSERT INTO t VALUES (%s)"
                  [[PyInt 1]; [PyInt 2]] (RefDriver.fresh false)))
    = [EvConnect; EvCursor;
       EvExecuteMany c "INSERT INTO t VALUES (%s)" [[PyInt 1]; [PyInt 2]];
       EvCommit; EvCursorClose c].
Proof.
  destruct (execute_many_returns _ _ RefDriver.pymysql "INSERT INTO t VALUES (%s)"
              [[PyInt 1]; [PyInt 2]] (RefDriver.fresh false) 2 _ eq_refl)
    as [(Hnil & _)|(_ & c & Hlog & _)].
  - discriminate Hnil.
  - exists c. exact Hlog.
Defined.

(** A statement, then a query: one connection. *)
Lemma connection_is_reused_witness :
  List.filter is_connect
    (log _ (snd (execute_query _ _ RefDriver.pymysql "SELECT 1" None
                   (snd (execute_non_query _ _ RefDriver.pymysql "CREATE TABLE users" None
                           (RefDriver.fresh false))))))
  = [EvConnect].
Proof.
  destruct (connection_is_reused _ _ RefDriver.pymysql "CREATE TABLE users" None
              (RefDriver.fresh false) 0 _ eq_refl eq_refl) as [Hfirst Hnext].
  destruct (Hnext "SELECT 1" None) as [_ Hquery].
  exact (eq_trans Hquery Hfirst).
Defined.

(** A script of comments and blank lines. *)
Lemma run_script_nothing_kept_witness :
  run_script _ _ RefDriver.pymysql
    ("-- schema" ++ NL ++ "   " ++ NL ++ "# nothing yet" ++ NL) (RefDriver.fresh false)
  = (Ret tt, RefDriver.fresh false).
Proof.
  apply (run_script_nothing_kept _ _ RefDriver.pymysql
           ("-- schema" ++ NL ++ "   " ++ NL ++ "# nothing yet" ++ NL) (RefDriver.fresh false)).
  vm_compute. reflexivity.
Defined.

(** The existence check on a server without the table. *)
Lemma table_exists_returns_witness :
  exists c,
    log _ (snd (table_exists _ _ RefDriver.pymysql "users" None (RefDriver.fresh false)))
    = [EvConnect; EvCursor; EvExecute c TABLE_EXISTS_SQL [PyNone; PyStr "users"];
       EvCommit; EvCursorClose c; EvFetchOne c].
Proof.
  destruct (table_exists_returns _ _ RefDriver.pymysql "users" None
              (RefDriver.fresh false) false _ eq_refl) as (c & r & Hlog & _).
  exists c. exact Hlog.
Defined.

(** [ensure_table] with the empty name. *)
Lemma ensure_table_without_name_witness :
  statements_run
    (log _ (snd (ensure_table _ _ RefDriver.pymysql "CREATE TABLE users" (Some "") None
                   (RefDriver.fresh false))))
  = ["CREATE TABLE users"].
Proof.
  exact (proj1 (proj2 (ensure_table_without_name _ _ RefDriver.pymysql "CREATE TABLE users"
                         (Some "") None (RefDriver.fresh false) (or_intror eq_refl)))).
Defined.

(** [ensure_table] on a server whose commit fails: the check raises. *)
Lemma ensure_table_check_raises_witness :
  fst (ensure_table _ _ RefDriver.pymysql "CREATE TABLE users" (Some "users") None
         (RefDriver.fresh true))
  = Raise (mk_exc OperationalError "Lost connection")
  /\ statements_run
       (log _ (snd (table_exists _ _ RefDriver.pymysql "users" None (RefDriver.fresh true))))
     = [].
Proof.
  destruct (ensure_table_check_raises _ _ RefDriver.pymysql "CREATE TABLE users" "users" None
              (RefDriver.fresh true) (mk_exc OperationalError "Lost connection") _
              eq_refl eq_refl) as [Hraise Hrun].
  split; [now rewrite Hraise|exact Hrun].
Defined.

(** Closing a connected helper. *)
Lemma close_then_reconnect_witness :
  connect_events _ _ RefDriver.pymysql
    (snd (close _ _ RefDriver.pymysql ref_conn_close connected)) = [EvConnect].
Proof.
  exact (proj1 (proj2 (proj2 (close_then_reconnect _ _ RefDriver.pymysql ref_conn_close
                                connected _ eq_refl)))).
Defined.

(** A [with] block around one statement. *)
Lemma with_helper_closes_witness :
  fst (with_helper _ _ RefDriver.pymysql ref_conn_close
         (execute_non_query _ _ RefDriver.pymysql "CREATE TABLE users" None)
         (RefDriver.fresh false)) = Ret 0
  /\ connection _ (snd (with_helper _ _ RefDriver.pymysql ref_conn_close
                          (execute_non_query _ _ RefDriver.pymysql "CREATE TABLE users" None)
                          (RefDriver.fresh false))) = false.
Proof.
  destruct (with_helper_closes _ _ RefDriver.pymysql ref_conn_close
              (execute_non_query _ _ RefDriver.pymysql "CREATE TABLE users" None)
              (RefDriver.fresh false) _ eq_refl) as (Hblock & _).
  rewrite Hblock. split; reflexivity.
Defined.

(** The database of the movie API, with the default character set. *)
Lemma create_database_runs_one_statement_witness :
  exists c,
    log _ (snd (create_database_if_not_exists _ _ RefDriver.pymysql
                  "movies" DEFAULT_CHARSET DEFAULT_COLLATE (RefDriver.fresh false)))
    = [EvNonQuery
         "CREATE DATABASE IF NOT EXISTS `movies` CHARACTER SET utf8mb4 COLLATE utf8mb4_general_ci;"
         [];
       EvConnect; EvCursor;
       EvExecute c
         "CREATE DATABASE IF NOT EXISTS `movies` CHARACTER SET utf8mb4 COLLATE utf8mb4_general_ci;"
         [];
       EvCommit; EvCursorClose c].
Proof.
  destruct (create_database_runs_one_statement _ _ RefDriver.pymysql
              "movies" DEFAULT_CHARSET DEFAULT_COLLATE (RefDriver.fresh false) _ eq_refl)
    as (c & Hlog).
  exists c. exact Hlog.
Defined.

(** A token issued at time 0, presented when its 24 hours are over. *)
Lemma expired_token_refused_witness :
  fst (require_auth RefJWT.jwt_decode DEV_SECRET hello
         (bearing (create_jwt RefJWT.jwt_encode DEV_SECRET (identity 7 "a@b.com") 0) 86400))
  = Ret unauthorized.
Proof.
  exact (proj1 (expired_token_refused RefJWT.jwt_encode RefJWT.jwt_decode DEV_SECRET
                  (fun d e now => RefJWT.expired d DEV_SECRET JWT_ALG e now)
                  (fun d => RefJWT.nonempty d DEV_SECRET JWT_ALG)
                  7 "a@b.com" 0 hello
                  (bearing (create_jwt RefJWT.jwt_encode DEV_SECRET (identity 7 "a@b.com") 0)
                           86400)
                  ltac:(vm_compute; intros H; discriminate H)
                  (lookup_singleton_eq _ _))).
Defined.

(** A token with the server's signature and nothing but an expiry. *)
Lemma me_needs_uid_claim_witness :
  fst (require_auth RefJWT.jwt_decode DEV_SECRET me
         (bearing (RefJWT.jwt_encode {[ "exp" := PyInt 100 ]} DEV_SECRET JWT_ALG) 0))
  = Raise (mk_exc KeyError "uid").
Proof.
  refine (proj1 (me_needs_uid_claim RefJWT.jwt_encode RefJWT.jwt_decode DEV_SECRET
                   (fun d e now => RefJWT.fresh d DEV_SECRET JWT_ALG e now)
                   (fun d => RefJWT.nonempty d DEV_SECRET JWT_ALG)
                   {[ "exp" := PyInt 100 ]} 100
                   (bearing (RefJWT.jwt_encode {[ "exp" := PyInt 100 ]} DEV_SECRET JWT_ALG) 0)
                   _ eq_refl eq_refl eq_refl (lookup_singleton_eq _ _))).
  split.
  - intros k Hk. repeat (apply elem_of_cons in Hk as [->|Hk]; [reflexivity|]).
    inversion Hk.
  - intros k t Hne. now rewrite lookup_singleton_ne by congruence.
Defined.

(** A username given with spaces around it. *)
Lemma register_username_witness :
  exists a1 row,
    register ref_hash
      (registering (<["username" := "  Ada  "]>
                      (<["email" := "a@b.com"]> {[ "password" := "pw" ]})))
    = (Ret (jsonify {[ "message" := PyStr "ok" ]}), a1)
    /\ users a1 = [row]
    /\ user_username row = "Ada".
Proof.
  destruct (register_username ref_hash
              (registering (<["username" := "  Ada  "]>
                              (<["email" := "a@b.com"]> {[ "password" := "pw" ]})))
              (<["username" := "  Ada  "]>
                 (<["email" := "a@b.com"]> {[ "password" := "pw" ]}))
              "pw" "  Ada  "
              ltac:(vm_compute; reflexivity) ltac:(vm_compute; reflexivity)
              ltac:(vm_compute; reflexivity) ltac:(vm_compute; reflexivity)
              ltac:(vm_compute; reflexivity) ltac:(vm_compute; reflexivity))
    as (a1 & row & Hreg & Husers & Hname).
  exists a1, row. split; [exact Hreg|]. split; [exact Husers|]. exact Hname.
Defined.

(** A server that cannot be reached. *)
Lemma connect_failure_stops_witness :
  execute_query _ _
    (FaultyDriver.pymysql {| FaultyDriver.no_connect := true; FaultyDriver.no_cursor := false;
                             FaultyDriver.no_rollback := false; FaultyDriver.no_close := false |})
    "SELECT 1" None (RefDriver.fresh false)
  = (Raise (mk_exc OperationalError "Can't connect to MySQL server"),
     {| connection := false; server := server _ (RefDriver.fresh false); log := [EvConnect] |}).
Proof.
  exact (proj1 (connect_failure_stops _ _
                  (FaultyDriver.pymysql
                     {| FaultyDriver.no_connect := true; FaultyDriver.no_cursor := false;
                        FaultyDriver.no_rollback := false; FaultyDriver.no_close := false |})
                  "SELECT 1" None (RefDriver.fresh false) _ _ eq_refl eq_refl)).
Defined.

(** A connection that gives no cursor. *)
Lemma cursor_failure_rolls_back_witness :
  log _ (snd (_get_cursor _ _
                (FaultyDriver.pymysql
                   {| FaultyDriver.no_connect := false; FaultyDriver.no_cursor := true;
                      FaultyDriver.no_rollback := false; FaultyDriver.no_close := false |})
                RefDriver.insert_body (RefDriver.fresh false)))
  = [EvConnect; EvCursor; EvRollback].
Proof.
  exact (f_equal (fun out => log _ (snd out))
           (cursor_failure_rolls_back _ _
              (FaultyDriver.pymysql
                 {| FaultyDriver.no_connect := false; FaultyDriver.no_cursor := true;
                    FaultyDriver.no_rollback := false; FaultyDriver.no_close := false |})
              RefDriver.insert_body (RefDriver.fresh false) _ _ _ _ _
              eq_refl eq_refl eq_refl eq_refl)).
Defined.

(** A body that raises on a connection whose rollback fails. *)
Lemma scope_raises_latest_witness :
  fst (_get_cursor _ _
         (FaultyDriver.pymysql
            {| FaultyDriver.no_connect := false; FaultyDriver.no_cursor := false;
               FaultyDriver.no_rollback := true; FaultyDriver.no_close := false |})
         (fun _ => raise (mk_exc ProgrammingError "You have an error in your SQL syntax")
                   : M _ Z)
         (RefDriver.fresh false))
  = Raise FaultyDriver.gone_away.
Proof.
  exact (proj1 (scope_raises_latest _ _
                  (FaultyDriver.pymysql
                     {| FaultyDriver.no_connect := false; FaultyDriver.no_cursor := false;
                        FaultyDriver.no_rollback := true; FaultyDriver.no_close := false |})
                  (fun _ => raise (mk_exc ProgrammingError
                                     "You have an error in your SQL syntax") : M _ Z)
                  (RefDriver.fresh false) _ 0%nat _ eq_refl eq_refl)
           _ _ _ _ eq_refl eq_refl eq_refl eq_refl).
Defined.

(** A payload that comes with an expiry of its own. *)
Lemma create_jwt_sets_expiry_witness :
  create_jwt RefJWT.jwt_encode DEV_SECRET
    (<["exp" := PyInt 4102444800]> (identity 7 "a@b.com")) 0
  = create_jwt RefJWT.jwt_encode DEV_SECRET (identity 7 "a@b.com") 0.
Proof.
  exact (proj1 (create_jwt_sets_expiry RefJWT.jwt_encode RefJWT.jwt_decode DEV_SECRET
                  (fun d e now => RefJWT.fresh d DEV_SECRET JWT_ALG e now)
                  (identity 7 "a@b.com") (PyInt 4102444800) 0)).
Defined.
